(** * igvm: guest preparation, configuration-management run and image fetch

    A shallow embedding of [igvm/utils/preparevm.py] and
    [managevm/utils/image_packet.py].  Both files are orchestration
    scripts: they issue shell commands on remote hosts through Fabric,
    call a few collaborators (templating, HTTP) and react to the
    outcomes.  The embedding keeps the command strings of the source,
    threads the dynamic Fabric environment and the history of issued
    requests through a state-and-exception monad, and leaves the outcome
    of every request to an [environment].                                *)

From Stdlib Require Import Ascii String List ZArith Lia Bool.
From stdpp Require Import base option list strings gmap pretty.

Local Open Scope string_scope.
Local Open Scope list_scope.

(** ** Python strings *)

Module Py.

(** The double-quote character, kept apart so that no literal has to
    escape it. *)
Definition dq : string := String (ascii_of_nat 34) EmptyString.
(** The single-quote character. *)
Definition sq : string := String (ascii_of_nat 39) EmptyString.

Definition digit_of (c : ascii) : option nat :=
  let n := nat_of_ascii c in
  if (48 <=? n)%nat && (n <=? 57)%nat then Some (n - 48)%nat else None.

(** [str.format] restricted to the replacement fields the sources use:
    [{}] (automatic numbering) and [{d}] with one decimal digit.  A field
    whose index has no argument renders as the empty string (Python
    raises [IndexError]; no call in the sources does that). *)
Fixpoint format_from (auto : nat) (args : list string) (t : string) : string :=
  match t with
  | EmptyString => EmptyString
  | String c r =>
      if Ascii.eqb c "{" then
        match r with
        | EmptyString => String c EmptyString
        | String c1 r1 =>
            if Ascii.eqb c1 "}" then
              nth auto args "" +:+ format_from (S auto) args r1
            else
              match digit_of c1, r1 with
              | Some i, String c2 r2 =>
                  if Ascii.eqb c2 "}" then nth i args "" +:+ format_from auto args r2
                  else String c (format_from auto args r)
              | _, _ => String c (format_from auto args r)
              end
        end
      else String c (format_from auto args r)
  end.

Definition format (t : string) (args : list string) : string :=
  format_from 0 args t.

(** [pipes.quote]: a word made of safe characters is returned as it is,
    the empty word becomes two single quotes, anything else is wrapped in
    single quotes, every single quote inside being closed, put between
    double quotes and reopened. *)
Definition safechar (c : ascii) : bool :=
  let n := nat_of_ascii c in
  ((97 <=? n)%nat && (n <=? 122)%nat)      (* a-z *)
  || ((65 <=? n)%nat && (n <=? 90)%nat)    (* A-Z *)
  || ((48 <=? n)%nat && (n <=? 57)%nat)    (* 0-9 *)
  || existsb (Ascii.eqb c) (list_ascii_of_string "@%_-+=:,./").

Fixpoint all_safe (s : string) : bool :=
  match s with
  | EmptyString => true
  | String c r => safechar c && all_safe r
  end.

Fixpoint replace_sq (s : string) : string :=
  match s with
  | EmptyString => EmptyString
  | String c r =>
      if Ascii.eqb c (ascii_of_nat 39)
      then (sq +:+ dq +:+ sq +:+ dq +:+ sq) +:+ replace_sq r
      else String c (replace_sq r)
  end.

Definition quote (s : string) : string :=
  if all_safe s then (if String.eqb s "" then sq +:+ sq else s)
  else sq +:+ replace_sq s +:+ sq.

(** [cmd(cmd, *args)]: every argument is shell-quoted, then substituted
    into the template. *)
Definition cmd (template : string) (args : list string) : string :=
  format template (map quote args).

(** [str.split()] without argument: maximal runs of non-blank
    characters. *)
Definition is_space (c : ascii) : bool :=
  let n := nat_of_ascii c in
  (n =? 32)%nat || ((9 <=? n)%nat && (n <=? 13)%nat).

Fixpoint split_from (cur : option string) (s : string) : list string :=
  match s with
  | EmptyString => match cur with Some w => [w] | None => [] end
  | String c r =>
      if is_space c then
        match cur with
        | Some w => w :: split_from None r
        | None => split_from None r
        end
      else
        split_from
          (Some (match cur with
                 | Some w => w +:+ String c EmptyString
                 | None => String c EmptyString
                 end)) r
  end.

Definition split (s : string) : list string := split_from None s.

(** [str.strip()] without argument. *)
Fixpoint lstrip (s : string) : string :=
  match s with
  | EmptyString => EmptyString
  | String c r => if is_space c then lstrip r else s
  end.

Fixpoint rstrip (s : string) : string :=
  match s with
  | EmptyString => EmptyString
  | String c r =>
      match rstrip r with
      | EmptyString => if is_space c then EmptyString else String c EmptyString
      | r' => String c r'
      end
  end.

Definition strip (s : string) : string := rstrip (lstrip s).

(** Truth value of [os.environ.get(...)]: [None] and the empty string
    are false. *)
Definition truthy (o : option string) : option string :=
  match o with
  | Some v => if String.eqb v "" then None else Some v
  | None => None
  end.

(** [os.path.join] for two components. *)
Definition starts_with_slash (s : string) : bool :=
  match s with String c _ => Ascii.eqb c "/" | EmptyString => false end.

Fixpoint ends_with_slash (s : string) : bool :=
  match s with
  | EmptyString => false
  | String c EmptyString => Ascii.eqb c "/"
  | String _ r => ends_with_slash r
  end.

Definition path_join (a b : string) : string :=
  if starts_with_slash b then b
  else if String.eqb a "" || ends_with_slash a then a +:+ b
  else a +:+ "/" +:+ b.

End Py.


(** ** Exceptions, requests and their outcomes *)

Inductive exn : Type :=
| IGVMError (msg : string)
| RemoteCommandError (command : string)   (* a fail-fast command that failed *)
| SocketError (msg : string)              (* socket.error *)
| URLError (msg : string)                 (* urllib2.URLError *)
| AssertionError
| IndexError
| KeyError (key : string)
| CollaboratorError (what : string)       (* a failed templating or transfer call *)
| OtherException (name : string).         (* an exception of a class the sources do not name *)

Inductive result (A : Type) : Type :=
| Ret (a : A)
| Raise (e : exn).
Arguments Ret {A} a.
Arguments Raise {A} e.

(** Values of a template context. *)
Inductive tvalue : Type :=
| TStr (s : string)
| TList (l : list string)
| TDict (l : list (string * string)).

(** What [Transaction.on_rollback] is given: a description, a callable
    and its arguments.  The only callable the sources register is the
    bound method [hypervisor.run]. *)
Inductive callable : Type :=
| HypervisorRun (hv_name : string).

Record compensation : Type := Compensation {
  description : string;
  action : callable;
  action_args : list string;
}.

(** Every interaction with the outside of the process, in the order in
    which the program performs it. *)
Inductive event : Type :=
| ERun (host cwd command : string) (warn : bool)
| EGet (host cwd remote_path : string)
| EPut (host cwd local_path remote_path : string) (mode : nat)
| EUploadTemplate (host cwd template destination : string)
                  (context : list (string * tvalue))
| ECreateAuthorizedKeys (host cwd target_dir : string)
| EExists (host cwd path : string)
| EUrlopen (url : string) (data : option (gmap string string)) (timeout : option nat)
| ELogInfo (msg : string)
| EOnRollback (c : compensation).

Record run_result : Type := RunResult {
  stdout : string;
  return_code : Z;
}.

Inductive http_outcome : Type :=
| HttpResponse (code : Z) (body : string)
| HttpSocketError (msg : string)
| HttpURLError (msg : string).

(** The outside world: the outcome of a request as a function of the
    history of requests up to and including it.  Nothing is assumed of
    it, so a theorem quantified over [environment] covers every remote
    behaviour that reaches the program as one of these outcomes (any
    exit status and output of a command, any response, socket error or
    URL error of a request).  Exceptions of other classes are the
    subject of [Uncaught] below. *)
Record environment : Type := Environment {
  env_run : list event -> run_result;
  env_get : list event -> option string;
  env_call : list event -> bool;
  env_exists : list event -> bool;
  env_urlopen : list event -> http_outcome;
}.

(** The constants [preparevm] imports from [igvm.settings]; that module
    is not among the sources, so their values are left open. *)
Record igvm_settings : Type := Settings {
  DEFAULT_DNS_SERVERS : list string;
  DEFAULT_SWAP_SIZE : N;
}.

(** Fabric's dynamic environment [env]. *)
Record fabric_env : Type := FabricEnv {
  host_string : string;
  cwd : string;
  warn_only : bool;
}.

(** The state of the process: what it has requested so far, Fabric's
    environment, the VM's inventory record (a dictionary the code
    mutates in place), the open transaction and [os.environ]. *)
Record world : Type := World {
  history : list event;
  fab : fabric_env;
  server_obj : gmap string string;
  transaction : list compensation;
  environ : gmap string string;
}.

Definition set_history (h : list event) (w : world) : world :=
  World h (fab w) (server_obj w) (transaction w) (environ w).
Definition set_fab (f : fabric_env) (w : world) : world :=
  World (history w) f (server_obj w) (transaction w) (environ w).
Definition set_server_obj (o : gmap string string) (w : world) : world :=
  World (history w) (fab w) o (transaction w) (environ w).
Definition set_transaction (t : list compensation) (w : world) : world :=
  World (history w) (fab w) (server_obj w) t (environ w).

(** ** The monad: state, and exceptions that keep the state *)

Definition M (A : Type) : Type := world -> result A * world.

Definition ret {A} (a : A) : M A := fun w => (Ret a, w).
Definition raise {A} (e : exn) : M A := fun w => (Raise e, w).
Definition bind {A B} (m : M A) (k : A -> M B) : M B :=
  fun w => match m w with
           | (Ret a, w') => k a w'
           | (Raise e, w') => (Raise e, w')
           end.

Declare Scope py_scope.
Delimit Scope py_scope with py.
Notation "x <- m ;; k" := (bind m (fun x => k))
  (at level 100, m at next level, right associativity) : py_scope.
Notation "m ;; k" := (bind m (fun _ => k))
  (at level 100, right associativity) : py_scope.
Local Open Scope py_scope.

(** [try: body except <handles>: handler]. *)
Definition try_except {A} (body : M A) (handles : exn -> bool) (handler : exn -> M A) : M A :=
  fun w => match body w with
           | (Ret a, w') => (Ret a, w')
           | (Raise e, w') => if handles e then handler e w' else (Raise e, w')
           end.

Fixpoint for_each {A} (l : list A) (body : A -> M unit) : M unit :=
  match l with
  | [] => ret tt
  | x :: r => body x ;; for_each r body
  end.

Definition emit (e : event) : M unit :=
  fun w => (Ret tt, set_history (history w ++ [e]) w).

Definition get_world : M world := fun w => (Ret w, w).

(** ** Fabric *)

Module Fabric.

Fixpoint escape_spaces (s : string) : string :=
  match s with
  | EmptyString => EmptyString
  | String c r =>
      if Ascii.eqb c " " then String "\" (String " " (escape_spaces r))
      else String c (escape_spaces r)
  end.

Definition starts_with (c : ascii) (s : string) : bool :=
  match s with String c' _ => Ascii.eqb c c' | EmptyString => false end.

(** [cd(path)]: a relative path is appended to the current directory. *)
Definition cd (path : string) (f : fabric_env) : fabric_env :=
  let path := escape_spaces path in
  let new_cwd :=
    if negb (String.eqb (cwd f) "") && negb (starts_with "/" path) && negb (starts_with "~" path)
    then cwd f +:+ "/" +:+ path
    else path in
  FabricEnv (host_string f) new_cwd (warn_only f).

Definition set_host (h : string) (f : fabric_env) : fabric_env :=
  FabricEnv h (cwd f) (warn_only f).

Definition set_warn_only (b : bool) (f : fabric_env) : fabric_env :=
  FabricEnv (host_string f) (cwd f) b.

(** [with settings(...): body]: the environment is changed for the body
    and restored afterwards, also when the body raises. *)
Definition with_settings {A} (change : fabric_env -> fabric_env) (body : M A) : M A :=
  fun w =>
    let old := fab w in
    match body (set_fab (change old) w) with
    | (r, w') => (r, set_fab old w')
    end.

Section Operations.
Variable E : environment.

(** [run(command, warn_only=...)]: the command goes to the current host
    in the current directory; a non-zero status raises unless the call
    or the environment says warn-only. *)
Definition run (command : string) (warn : bool) : M string :=
  fun w =>
    let f := fab w in
    let wo := warn || warn_only f in
    let h := history w ++ [ERun (host_string f) (cwd f) command wo] in
    let r := env_run E h in
    if (return_code r =? 0)%Z || wo
    then (Ret (stdout r), set_history h w)
    else (Raise (RemoteCommandError command), set_history h w).

(** [get(remote_path, fd)]: the contents of the remote file. *)
Definition get (remote_path : string) : M string :=
  fun w =>
    let f := fab w in
    let h := history w ++ [EGet (host_string f) (cwd f) remote_path] in
    match env_get E h with
    | Some contents => (Ret contents, set_history h w)
    | None => (Raise (CollaboratorError "get"), set_history h w)
    end.

(** A collaborator call without a result: it succeeds or raises. *)
Definition call (what : string) (e : fabric_env -> event) : M unit :=
  fun w =>
    let h := history w ++ [e (fab w)] in
    if env_call E h then (Ret tt, set_history h w)
    else (Raise (CollaboratorError what), set_history h w).

Definition put (local_path remote_path : string) (mode : nat) : M unit :=
  call "put" (fun f => EPut (host_string f) (cwd f) local_path remote_path mode).

(** [fabric.contrib.files.exists(path)]. *)
Definition exists_ (path : string) : M bool :=
  fun w =>
    let f := fab w in
    let h := history w ++ [EExists (host_string f) (cwd f) path] in
    (Ret (env_exists E h), set_history h w).

End Operations.

End Fabric.

(** ** The VM and hypervisor objects

    The classes [VM] and [Hypervisor] are not among the sources.  The
    functions below only read attributes of a VM, ask a hypervisor for
    the mount path and the block-device name, and run commands scoped to
    the hypervisor's host; the objects are records of those answers. *)

Record VM : Type := MkVM {
  hostname : string;
  fqdn : string;
  network_config : list (string * string);
}.

Record Hypervisor : Type := MkHypervisor {
  hv_hostname : string;
  vm_mount_path : VM -> string;
  vm_block_device_name : string;
}.

(** The argument [tx] of [run_puppet]: [None], or the transaction of the
    running operation (held in the world, since registering mutates it). *)
Inductive transaction_ref : Type := CurrentTransaction.

(** [vm.server_obj[key]]. *)
Definition server_obj_get (key : string) : M string :=
  fun w => match server_obj w !! key with
           | Some v => (Ret v, w)
           | None => (Raise (KeyError key), w)
           end.

(** [vm.server_obj[key] = value]. *)
Definition server_obj_set (key value : string) : M unit :=
  fun w => (Ret tt, set_server_obj (<[key := value]> (server_obj w)) w).

(** [os.environ.get(key)]. *)
Definition environ_get (key : string) : M (option string) :=
  fun w => (Ret (environ w !! key), w).

(** [log.info(msg)]. *)
Definition log_info (msg : string) : M unit := emit (ELogInfo msg).

(** Modelled from the spec: the class [Transaction] is not among the
    sources.  [register(description, action, args...)] appends a
    compensation; the newest one is at the head, so that a rollback
    walks the list from its head (reverse order of registration). *)
Definition on_rollback (d : string) (a : callable) (args : list string) : M unit :=
  fun w =>
    let c := Compensation d a args in
    (Ret tt, set_transaction (c :: transaction w)
               (set_history (history w ++ [EOnRollback c]) w)).

(** ** igvm/utils/preparevm.py *)

Module Preparevm.

Section Preparevm.
Variable E : environment.
Variable settings : igvm_settings.

Definition run : string -> bool -> M string := Fabric.run E.

(** [hypervisor.fabric_settings(...)] and [hypervisor.run(...)]. *)
Definition hv_fabric_settings {A} (hv : Hypervisor)
    (more : fabric_env -> fabric_env) (body : M A) : M A :=
  Fabric.with_settings (fun f => more (Fabric.set_host (hv_hostname hv) f)) body.

Definition hv_run (hv : Hypervisor) (command : string) : M string :=
  hv_fabric_settings hv (fun f => f) (run command false).

(** The collaborators [upload_template] and [create_authorized_keys]. *)
Definition upload_template (template destination : string)
    (context : list (string * tvalue)) : M unit :=
  Fabric.call E "upload_template"
    (fun f => EUploadTemplate (host_string f) (cwd f) template destination context).

Definition create_authorized_keys (target_dir : string) : M unit :=
  Fabric.call E "create_authorized_keys"
    (fun f => ECreateAuthorizedKeys (host_string f) (cwd f) target_dir).

Definition key_types (os : string) : list string :=
  if String.eqb os "wheezy" then ["dsa"; "rsa"; "ecdsa"]
  else ["dsa"; "rsa"; "ecdsa"; "ed25519"].

Definition ssh_keygen_command (key_type : string) : string :=
  Py.format
    ("chroot . ssh-keygen -q -t {0} -N " +:+ Py.dq +:+ Py.dq
       +:+ " -f etc/ssh/ssh_host_{0}_key")
    [key_type].

Definition _create_ssh_keys (os : string) : M unit :=
  run "rm -f etc/ssh/ssh_host_*_key*" false ;;
  for_each (key_types os) (fun key_type =>
    run (ssh_keygen_command key_type) false ;; ret tt).

Definition _get_ssh_public_key (key_type : string) : M string :=
  contents <- Fabric.get E (Py.format "etc/ssh/ssh_host_{0}_key.pub" [key_type]) ;;
  let key_split := Py.split contents in
  match key_split with
  | [] => raise IndexError
  | first :: rest =>
      if String.eqb first ("ssh-" +:+ key_type) then
        match rest with
        | second :: _ => ret second
        | [] => raise IndexError
        end
      else raise AssertionError
  end.

Definition _generate_swap (swap_path : string) (size_MiB : N) : M unit :=
  run (Py.cmd "dd if=/dev/zero of={0} bs=1M count={1}" [swap_path; pretty size_MiB]) false ;;
  run (Py.cmd "/sbin/mkswap {0}" [swap_path]) false ;;
  run (Py.cmd "/bin/chmod 0600 {0}" [swap_path]) false ;;
  ret tt.

Definition _create_interfaces (network_config : list (string * string)) : M unit :=
  run "mkdir -p etc/network" false ;;
  upload_template "etc/network/interfaces" "etc/network/interfaces"
    [("network_config", TDict network_config)].

Definition block_line_1 : string :=
  "echo " +:+ Py.dq +:+ "#!/bin/sh" +:+ Py.dq +:+ " >> usr/sbin/policy-rc.d".
Definition block_line_2 : string :=
  "echo " +:+ Py.dq +:+ "exit 101" +:+ Py.dq +:+ "  >> usr/sbin/policy-rc.d".

Definition block_autostart (hypervisor : Hypervisor) (vm : VM) : M unit :=
  let target_dir := vm_mount_path hypervisor vm in
  Fabric.with_settings (Fabric.cd target_dir)
    (hv_run hypervisor block_line_1 ;;
     hv_run hypervisor block_line_2 ;;
     hv_run hypervisor "chmod +x usr/sbin/policy-rc.d" ;;
     ret tt).

Definition unblock_autostart (hypervisor : Hypervisor) (vm : VM) : M unit :=
  let target_dir := vm_mount_path hypervisor vm in
  Fabric.with_settings (Fabric.cd target_dir)
    (hv_run hypervisor "rm usr/sbin/policy-rc.d" ;; ret tt).

Definition prepare_vm (hypervisor : Hypervisor) (vm : VM) : M unit :=
  let target_dir := vm_mount_path hypervisor vm in
  hv_fabric_settings hypervisor (Fabric.cd target_dir)
    (run (Py.cmd "echo {0} > etc/hostname" [fqdn vm]) false ;;
     run (Py.cmd "echo {0} > etc/mailname" [fqdn vm]) false ;;

     _create_interfaces (network_config vm) ;;
     os <- server_obj_get "os" ;;
     _create_ssh_keys os ;;
     pubkey <- _get_ssh_public_key "rsa" ;;
     server_obj_set "ssh_pubkey" pubkey ;;

     upload_template "etc/fstab" "etc/fstab"
       [("blk_dev", TStr (vm_block_device_name hypervisor));
        ("type", TStr "xfs");
        ("mount_options", TStr "defaults")] ;;
     upload_template "etc/hosts" "etc/hosts" [] ;;
     upload_template "etc/inittab" "etc/inittab" [] ;;
     upload_template "etc/resolv.conf" "etc/resolv.conf"
       [("dns_servers", TList (DEFAULT_DNS_SERVERS settings))] ;;

     let swap_path := Py.path_join target_dir "swap" in
     _generate_swap swap_path (DEFAULT_SWAP_SIZE settings) ;;

     create_authorized_keys target_dir).

Definition copy_postboot_script (hypervisor : Hypervisor) (vm : VM) (script : string) : M unit :=
  let target_dir := vm_mount_path hypervisor vm in
  hv_fabric_settings hypervisor (Fabric.cd target_dir)
    (Fabric.put E script "buildvm-postboot" 755).

(** The query parameters of the certificate-clearing request. *)
Definition clear_params (hostname token : string) : gmap string string :=
  <["token" := token]> (<["hostname" := hostname]> (<["command" := "clear"]> ∅)).

Definition urlopen (url : string) (data : option (gmap string string))
    (timeout : option nat) : M http_outcome :=
  fun w =>
    let h := history w ++ [EUrlopen url data timeout] in
    (Ret (env_urlopen E h), set_history h w).

Definition _clear_cert_controller (hostname puppet_master token : string) : M unit :=
  try_except
    (response <- urlopen (Py.format "https://{}:9000/" [puppet_master])
                   (Some (clear_params hostname token)) None ;;
     match response with
     | HttpSocketError msg => raise (SocketError msg)
     | HttpURLError msg => raise (URLError msg)
     | HttpResponse code body =>
         if negb (code =? 200)%Z then raise (IGVMError (Py.strip body))
         else ret tt
     end)
    (fun e => match e with SocketError _ | URLError _ => true | _ => false end)
    (fun e => match e with
              | SocketError msg | URLError msg => raise (IGVMError msg)
              | _ => raise e
              end).

Definition kill_puppet_command (vm : VM) : string :=
  Py.format ("pkill -9 -f " +:+ Py.dq +:+ "/usr/bin/puppet agent -v --fqdn={}" +:+ Py.dq)
    [fqdn vm].

Definition puppet_agent_command (vm : VM) (puppet_master puppet_ca : string) : string :=
  Py.format
    ("chroot . /usr/bin/puppet agent -v --fqdn={}"
       +:+ " --server {} --ca_server {} --no-report"
       +:+ " --waitforcert=60 --onetime --no-daemonize"
       +:+ " --tags=network,puppet --skip_tags=nrpe")
    [fqdn vm; puppet_master; puppet_ca].

Definition cert_clean_command (vm : VM) : string :=
  Py.cmd ("/usr/bin/puppet cert clean {0}"
            +:+ " || echo " +:+ Py.dq +:+ "No cert for Host found" +:+ Py.dq)
    [fqdn vm].

Definition run_puppet (hypervisor : Hypervisor) (vm : VM) (clear_cert : bool)
    (tx : option transaction_ref) : M unit :=
  let target_dir := vm_mount_path hypervisor vm in
  block_autostart hypervisor vm ;;

  (if clear_cert then
     puppet_ca <- server_obj_get "puppet_ca" ;;
     controller_token <- environ_get "PUPPET_CONTROLLER_TOKEN" ;;
     match Py.truthy controller_token with
     | Some token =>
         try_except
           (_clear_cert_controller (hostname vm) puppet_ca token ;;
            log_info (Py.format "Cleared Puppet cert of {} on {}" [hostname vm; puppet_ca]))
           (fun e => match e with IGVMError _ => true | _ => false end)
           (fun e =>
              log_info (Py.format "Failed to clear Puppet cert of {} on {}: {}"
                          [hostname vm; puppet_ca;
                           match e with IGVMError msg => msg | _ => "" end]))
     | None =>
         Fabric.with_settings
           (fun f => Fabric.set_warn_only true (Fabric.set_host puppet_ca f))
           (run (cert_clean_command vm) true ;; ret tt)
     end
   else ret tt) ;;

  Fabric.with_settings (Fabric.cd target_dir)
    ((match tx with
      | Some _ =>
          on_rollback "Kill puppet" (HypervisorRun (hv_hostname hypervisor))
            [kill_puppet_command vm]
      | None => ret tt
      end) ;;
     puppet_master <- server_obj_get "puppet_master" ;;
     puppet_ca <- server_obj_get "puppet_ca" ;;
     hv_run hypervisor (puppet_agent_command vm puppet_master puppet_ca) ;;
     ret tt) ;;

  unblock_autostart hypervisor vm.

End Preparevm.

End Preparevm.

(** ** Exceptions of other classes in the clearing step

    [urllib2.urlopen] and Fabric's [run] can also end with an exception
    that [http_outcome] and [run_result] do not have: [urlopen] with one
    that is neither a [socket.error] nor a [URLError]
    (httplib.BadStatusLine on a malformed status line, for one), [run]
    with one that warn-only mode does not turn into a warning (a
    connection that cannot be opened).  The oracle [other] says when: it
    maps the history that ends with a request to the name of such an
    exception, or to [None], in which case the outcome is the one the
    environment gives.  The functions below are [urlopen], [run],
    [_clear_cert_controller] and [run_puppet] once more, line by line,
    over this richer outside world; [hypervisor.run] is as before. *)

Module Uncaught.

Section Uncaught.
Variable E : environment.
Variable other : list event -> option string.

Definition urlopen (url : string) (data : option (gmap string string))
    (timeout : option nat) : M http_outcome :=
  fun w =>
    let h := history w ++ [EUrlopen url data timeout] in
    match other h with
    | Some name => (Raise (OtherException name), set_history h w)
    | None => (Ret (env_urlopen E h), set_history h w)
    end.

Definition run (command : string) (warn : bool) : M string :=
  fun w =>
    let f := fab w in
    let wo := warn || warn_only f in
    let h := history w ++ [ERun (host_string f) (cwd f) command wo] in
    match other h with
    | Some name => (Raise (OtherException name), set_history h w)
    | None => Fabric.run E command warn w
    end.

Definition _clear_cert_controller (hostname puppet_master token : string) : M unit :=
  try_except
    (response <- urlopen (Py.format "https://{}:9000/" [puppet_master])
                   (Some (Preparevm.clear_params hostname token)) None ;;
     match response with
     | HttpSocketError msg => raise (SocketError msg)
     | HttpURLError msg => raise (URLError msg)
     | HttpResponse code body =>
         if negb (code =? 200)%Z then raise (IGVMError (Py.strip body))
         else ret tt
     end)
    (fun e => match e with SocketError _ | URLError _ => true | _ => false end)
    (fun e => match e with
              | SocketError msg | URLError msg => raise (IGVMError msg)
              | _ => raise e
              end).

Definition run_puppet (hypervisor : Hypervisor) (vm : VM) (clear_cert : bool)
    (tx : option transaction_ref) : M unit :=
  let target_dir := vm_mount_path hypervisor vm in
  Preparevm.block_autostart E hypervisor vm ;;

  (if clear_cert then
     puppet_ca <- server_obj_get "puppet_ca" ;;
     controller_token <- environ_get "PUPPET_CONTROLLER_TOKEN" ;;
     match Py.truthy controller_token with
     | Some token =>
         try_except
           (_clear_cert_controller (hostname vm) puppet_ca token ;;
            log_info (Py.format "Cleared Puppet cert of {} on {}" [hostname vm; puppet_ca]))
           (fun e => match e with IGVMError _ => true | _ => false end)
           (fun e =>
              log_info (Py.format "Failed to clear Puppet cert of {} on {}: {}"
                          [hostname vm; puppet_ca;
                           match e with IGVMError msg => msg | _ => "" end]))
     | None =>
         Fabric.with_settings
           (fun f => Fabric.set_warn_only true (Fabric.set_host puppet_ca f))
           (run (Preparevm.cert_clean_command vm) true ;; ret tt)
     end
   else ret tt) ;;

  Fabric.with_settings (Fabric.cd target_dir)
    ((match tx with
      | Some _ =>
          on_rollback "Kill puppet" (HypervisorRun (hv_hostname hypervisor))
            [Preparevm.kill_puppet_command vm]
      | None => ret tt
      end) ;;
     puppet_master <- server_obj_get "puppet_master" ;;
     puppet_ca <- server_obj_get "puppet_ca" ;;
     Preparevm.hv_run E hypervisor (Preparevm.puppet_agent_command vm puppet_master puppet_ca) ;;
     ret tt) ;;

  Preparevm.unblock_autostart E hypervisor vm.

End Uncaught.

End Uncaught.

(** ** managevm/utils/image_packet.py *)

(** The one regular expression of the file,
    [<a\s+href=Q(.+?\.tar\.gz)Q] with [Q] the double quote, as
    [re.findall] evaluates it. *)
Module Re.

Definition newline : ascii := ascii_of_nat 10.

Fixpoint skip (n : nat) (s : string) : string :=
  match n, s with
  | S n', String _ r => skip n' r
  | _, _ => s
  end.

(** [\s+], greedy: the longest run of blanks, at least one. *)
Fixpoint blanks (s : string) : nat :=
  match s with
  | String c r => if Py.is_space c then S (blanks r) else 0
  | EmptyString => 0
  end.

Definition closing : string := ".tar.gz" +:+ Py.dq.

(** [.+?\.tar\.gz] followed by the quote, lazy: [acc] is what the dot
    has consumed so far; the dot does not match a newline. *)
Fixpoint lazy_target (acc : string) (s : string) : option string :=
  if String.prefix closing s then Some (acc +:+ ".tar.gz")
  else
    match s with
    | EmptyString => None
    | String c r =>
        if Ascii.eqb c newline then None
        else lazy_target (acc +:+ String c EmptyString) r
    end.

(** A match starting exactly at the head of [s]: the captured group and
    the length of the whole match. *)
Definition match_here (s : string) : option (string * nat) :=
  if String.prefix "<a" s then
    let s1 := skip 2 s in
    let k := blanks s1 in
    if (0 <? k)%nat then
      let s2 := skip k s1 in
      if String.prefix ("href=" +:+ Py.dq) s2 then
        match skip 6 s2 with
        | String c r =>
            if Ascii.eqb c newline then None
            else
              match lazy_target (String c EmptyString) r with
              | Some g => Some (g, 2 + k + 6 + String.length g + 1)%nat
              | None => None
              end
        | EmptyString => None
        end
      else None
    else None
  else None.

(** [re.findall]: leftmost matches, the scan resuming after each one;
    [jump] counts the characters of the last match still to be passed. *)
Fixpoint findall_from (jump : nat) (s : string) : list string :=
  match s with
  | EmptyString => []
  | String _ r =>
      match jump with
      | S j => findall_from j r
      | O =>
          match match_here s with
          | Some (g, len) => g :: findall_from (len - 1) r
          | None => findall_from 0 r
          end
      end
  end.

Definition findall (s : string) : list string := findall_from 0 s.

End Re.

Module Image_packet.

Definition BASE_URL : string := "http://files.innogames.de/".
Definition PACKET_SERVER : string := "packet.ig.local".
Definition PACKET_DIR : string := "/www/files.innogames.de/htdocs".

Section Image_packet.
Variable E : environment.

(** [run = fail_gracefully(run)].  The wrapper is not among the
    sources; what the functions below rely on is that the wrapped
    [run] either returns the output of the command or raises. *)
Definition run (command : string) : M string := Fabric.run E command false.

(** [s.split()[0]]. *)
Definition first_word (s : string) : M string :=
  match Py.split s with
  | w :: _ => ret w
  | [] => raise IndexError
  end.

Definition get_images : M (option (list string)) :=
  fun w =>
    let h := history w ++ [EUrlopen BASE_URL None (Some 2%nat)] in
    match env_urlopen E h with
    | HttpURLError _ => (Ret None, set_history h w)
    | HttpSocketError msg => (Raise (SocketError msg), set_history h w)
    | HttpResponse _ image_html => (Ret (Some (Re.findall image_html)), set_history h w)
    end.

Definition download_image (image : string) : M unit :=
  let url := BASE_URL +:+ image in
  present <- Fabric.exists_ E image ;;
  if (present : bool) then
    out <- run (Py.cmd "md5sum {0}" [image]) ;;
    local_hash <- first_word out ;;
    try_except
      (out' <- Fabric.with_settings (Fabric.set_host PACKET_SERVER)
                 (Fabric.with_settings (Fabric.cd PACKET_DIR)
                    (run (Py.cmd "md5sum {0}" [image]))) ;;
       remote_hash <- first_word out' ;;
       if negb (String.eqb local_hash remote_hash) then
         run (Py.cmd "rm -f {0}" [image]) ;;
         run (Py.cmd "wget -nv {0}" [url]) ;;
         ret tt
       else ret tt)
      (fun _ => true)
      (fun _ => ret tt)
  else
    run (Py.cmd "wget -nv {0}" [url]) ;; ret tt.

Definition extract_image (image target_dir : string) : M unit :=
  run (Py.cmd "tar xfz {0} -C {1}" [image; target_dir]) ;; ret tt.

End Image_packet.

End Image_packet.


(** ** Hyperlink targets, as C10 words them

    The targets of the hyperlinks of a page: for every anchor [<a],
    blanks, [href=], the text between the double quote that follows and
    the next one.  [get_images] is compared with the targets that end in
    [.tar.gz]. *)
Module Links.

Fixpoint upto_quote (s : string) : option string :=
  match s with
  | EmptyString => None
  | String c r =>
      if Ascii.eqb c (ascii_of_nat 34) then Some EmptyString
      else option_map (String c) (upto_quote r)
  end.

Definition target_here (s : string) : option string :=
  if String.prefix "<a" s then
    let s1 := Re.skip 2 s in
    let k := Re.blanks s1 in
    if (0 <? k)%nat then
      let s2 := Re.skip k s1 in
      if String.prefix ("href=" +:+ Py.dq) s2 then upto_quote (Re.skip 6 s2) else None
    else None
  else None.

Fixpoint hyperlink_targets (s : string) : list string :=
  match s with
  | EmptyString => []
  | String _ r =>
      match target_here s with
      | Some t => t :: hyperlink_targets r
      | None => hyperlink_targets r
      end
  end.

Definition ends_with (suffix s : string) : bool :=
  String.prefix (String.rev suffix) (String.rev s).

Definition tar_gz_targets (page : string) : list string :=
  List.filter (ends_with ".tar.gz") (hyperlink_targets page).

End Links.

(** ** Concrete objects, for evaluating the functions *)

Module Fixtures.

Definition vm1 : VM := MkVM "vm1" "vm1.test.ig.local" [("address", "10.0.0.7")].

Definition hv1 : Hypervisor :=
  MkHypervisor "hv1.test.ig.local" (fun vm => "/mnt/" +:+ hostname vm) "vda".

Definition fab0 : fabric_env := FabricEnv "localhost" "" false.

Definition w0 : world :=
  World [] fab0
    (<["os" := "jessie"]> (<["puppet_ca" := "ca.ig.local"]>
       (<["puppet_master" := "puppet.ig.local"]> ∅)))
    [] ∅.


Definition last_command (h : list event) : string :=
  match last h with
  | Some (ERun _ _ c _) => c
  | _ => ""
  end.

Definition last_host (h : list event) : string :=
  match last h with
  | Some (ERun host _ _ _) => host
  | _ => ""
  end.

(** Every command succeeds and prints a checksum line; every file read
    yields an RSA public key; the controller answers 200. *)
Definition all_fine : environment :=
  Environment
    (fun _ => RunResult "0f343b0931126a20f133d67c2b018a3b  jessie.tar.gz" 0)
    (fun _ => Some "ssh-rsa AAAAB3Nza root@vm1")
    (fun _ => true)
    (fun _ => true)
    (fun _ => HttpResponse 200 "ok").

(** As [all_fine], but the puppet agent exits with status 1. *)
Definition agent_fails : environment :=
  Environment
    (fun h =>
       if String.prefix "chroot . /usr/bin/puppet agent" (last_command h)
       then RunResult "Error: Could not find environment" 1
       else RunResult "" 0)
    (env_get all_fine) (env_call all_fine) (env_exists all_fine) (env_urlopen all_fine).

(** As [all_fine], but the packet server cannot be reached. *)
Definition packet_server_down : environment :=
  Environment
    (fun h =>
       if String.eqb (last_host h) Image_packet.PACKET_SERVER
       then RunResult "" 255
       else RunResult "0f343b0931126a20f133d67c2b018a3b  jessie.tar.gz" 0)
    (env_get all_fine) (env_call all_fine) (env_exists all_fine) (env_urlopen all_fine).

(** As [all_fine], but the packet server reports another checksum. *)
Definition stale_image : environment :=
  Environment
    (fun h =>
       if String.eqb (last_host h) Image_packet.PACKET_SERVER
       then RunResult "9e107d9d372bb6826bd81d3542a419d6  jessie.tar.gz" 0
       else RunResult "0f343b0931126a20f133d67c2b018a3b  jessie.tar.gz" 0)
    (env_get all_fine) (env_call all_fine) (env_exists all_fine) (env_urlopen all_fine).


(** Fabric in warn-only mode around the call. *)
Definition w0_warn : world :=
  World [] (FabricEnv "localhost" "" true) (server_obj w0) [] ∅.

(** As [all_fine], but the removal of the auto-start block exits with
    status 1. *)
Definition unblock_fails : environment :=
  Environment
    (fun h =>
       if String.eqb (last_command h) "rm usr/sbin/policy-rc.d"
       then RunResult "rm: cannot remove" 1
       else RunResult "" 0)
    (env_get all_fine) (env_call all_fine) (env_exists all_fine) (env_urlopen all_fine).

(** As [all_fine], but nothing can be written to the guest root: the
    two [echo] lines of the block exit with status 1. *)
Definition block_fails : environment :=
  Environment
    (fun h =>
       if String.prefix "echo " (last_command h)
       then RunResult "Read-only file system" 1
       else RunResult "" 0)
    (env_get all_fine) (env_call all_fine) (env_exists all_fine) (env_urlopen all_fine).



(** An index page with two links on one line, the first one not an
    archive. *)
Definition two_links_page : string :=
  "<a href=" +:+ Py.dq +:+ "x.txt" +:+ Py.dq +:+ ">x</a> "
    +:+ "<a href=" +:+ Py.dq +:+ "y.tar.gz" +:+ Py.dq +:+ ">y</a>".

Definition serves (page : string) : environment :=
  Environment (env_run all_fine) (env_get all_fine) (env_call all_fine) (env_exists all_fine)
    (fun _ => HttpResponse 200 page).

End Fixtures.

(** ** Checks of the string functions *)

Example format_positional :
  Py.format "dd if=/dev/zero of={0} bs=1M count={1}" ["/mnt/swap"; "1024"]
  = "dd if=/dev/zero of=/mnt/swap bs=1M count=1024".
Proof. reflexivity. Qed.

Example format_auto : Py.format "https://{}:9000/" ["ca.example"] = "https://ca.example:9000/".
Proof. reflexivity. Qed.

Example quote_safe : Py.quote "vm1.test.ig.local" = "vm1.test.ig.local".
Proof. reflexivity. Qed.

Example quote_unsafe : Py.quote "a b" = "'a b'".
Proof. reflexivity. Qed.

Example split_md5 : Py.split "d41d8cd9  jessie.tar.gz" = ["d41d8cd9"; "jessie.tar.gz"].
Proof. reflexivity. Qed.

Example findall_one_line :
  Re.findall ("<a href=" +:+ Py.dq +:+ "jessie.tar.gz" +:+ Py.dq +:+ ">jessie.tar.gz</a>")
  = ["jessie.tar.gz"].
Proof. reflexivity. Qed.

Lemma append_nil_r (s : string) : s +:+ "" = s.
Proof. induction s as [|c s IH]; [reflexivity|]. change (String c (s +:+ "") = String c s). now rewrite IH. Qed.

(** A command built by [Py.cmd] or [Py.format] from a literal template
    equals the concatenation it stands for. *)
Ltac cmd_eq :=
  cbv -[Py.quote String.append pretty];
  rewrite ?append_nil_r; reflexivity.

(** Projections of the world and of Fabric's environment, and nothing
    else, are simplified. *)
Ltac wsimpl :=
  cbn [history fab server_obj transaction environ
       set_history set_fab set_server_obj set_transaction
       host_string cwd warn_only Fabric.set_host Fabric.set_warn_only
       fst snd orb].

Ltac wsimpl_in H :=
  cbn [history fab server_obj transaction environ
       set_history set_fab set_server_obj set_transaction
       host_string cwd warn_only Fabric.set_host Fabric.set_warn_only
       fst snd orb] in H.

Ltac wsimpl_all :=
  cbn [history fab server_obj transaction environ
       set_history set_fab set_server_obj set_transaction
       host_string cwd warn_only Fabric.set_host Fabric.set_warn_only
       fst snd orb] in *.

(** ** The certificate-clearing request *)

Section ClearCert.
Variable E : environment.

Lemma clear_params_lookup hostname token k :
  Preparevm.clear_params hostname token !! k =
    if decide (k = "token") then Some token
    else if decide (k = "hostname") then Some hostname
    else if decide (k = "command") then Some "clear"
    else None.
Proof.
  unfold Preparevm.clear_params.
  repeat case_decide; subst; simplify_map_eq; done.
Qed.

Lemma clear_cert_controller_run hostname puppet_master token w :
  let h := history w ++ [EUrlopen ("https://" +:+ puppet_master +:+ ":9000/")
                           (Some (Preparevm.clear_params hostname token)) None] in
  Preparevm._clear_cert_controller E hostname puppet_master token w =
    (match env_urlopen E h with
     | HttpResponse code body =>
         if (code =? 200)%Z then Ret tt else Raise (IGVMError (Py.strip body))
     | HttpSocketError msg | HttpURLError msg => Raise (IGVMError msg)
     end, set_history h w).
Proof.
  cbv zeta.
  unfold Preparevm._clear_cert_controller, try_except, bind, Preparevm.urlopen.
  change (Py.format "https://{}:9000/" [puppet_master])
    with ("https://" +:+ puppet_master +:+ ":9000/").
  destruct (env_urlopen E _) as [code body|msg|msg]; cbn; try reflexivity.
  destruct (code =? 200)%Z; reflexivity.
Qed.

End ClearCert.

(** C6. [_clear_cert_controller] makes one request, to port 9000 of the
    given host over https, carrying exactly the three parameters token,
    hostname and command=clear.  It returns normally if and only if the
    answer is a response with status 200; a response with another status,
    a socket error and a URL error all raise [IGVMError]. *)
Theorem clear_cert_controller_spec (E : environment) (hostname puppet_master token : string) (w : world) :
  let out := Preparevm._clear_cert_controller E hostname puppet_master token w in
  let params := Preparevm.clear_params hostname token in
  let answer := env_urlopen E (history out.2) in
  history out.2 =
    history w ++ [EUrlopen ("https://" +:+ puppet_master +:+ ":9000/") (Some params) None]
  ∧ dom params = ({["token"; "hostname"; "command"]} : gset string)
  ∧ params !! "token" = Some token
  ∧ params !! "hostname" = Some hostname
  ∧ params !! "command" = Some "clear"
  ∧ (out.1 = Ret tt ↔ ∃ body, answer = HttpResponse 200 body)
  ∧ (∀ code body, answer = HttpResponse code body → code ≠ 200%Z →
       out.1 = Raise (IGVMError (Py.strip body)))
  ∧ (∀ msg, answer = HttpSocketError msg ∨ answer = HttpURLError msg →
       out.1 = Raise (IGVMError msg)).
Proof.
  cbv zeta. rewrite clear_cert_controller_run. cbn [fst snd history set_history].
  split; [reflexivity|].
  split.
  { unfold Preparevm.clear_params. rewrite !dom_insert_L, dom_empty_L. set_solver. }
  rewrite !clear_params_lookup.
  do 3 (split; [reflexivity|]).
  destruct (env_urlopen E _) as [code body|msg|msg].
  - destruct (Z.eqb_spec code 200) as [->|Hne].
    + split; [|split].
      * split; eauto.
      * intros c b [= <- <-] Hc. congruence.
      * intros m [?|?]; discriminate.
    + split; [|split].
      * split; [discriminate|]. intros [b [= ? ?]]. congruence.
      * intros c b [= <- <-] _. reflexivity.
      * intros m [?|?]; discriminate.
  - split; [|split].
    + split; [discriminate|]. intros [b ?]; discriminate.
    + intros c b ?; discriminate.
    + intros m [[= <-]|?]; [reflexivity|discriminate].
  - split; [|split].
    + split; [discriminate|]. intros [b ?]; discriminate.
    + intros c b ?; discriminate.
    + intros m [?|[= <-]]; [discriminate|reflexivity].
Qed.

(** ** Fetching an image *)

Section DownloadImage.
Variable E : environment.

(** The requests [download_image image] can make from the world [w]. *)
Definition ev_exists (w : world) (image : string) : event :=
  EExists (host_string (fab w)) (cwd (fab w)) image.
Definition ev_local (w : world) (command : string) : event :=
  ERun (host_string (fab w)) (cwd (fab w)) command (warn_only (fab w)).
Definition ev_packet_server (w : world) (command : string) : event :=
  ERun Image_packet.PACKET_SERVER Image_packet.PACKET_DIR command (warn_only (fab w)).

(** A command whose status lets [run] return, and the first word of what
    it printed. *)
Definition returns (h : list event) (w : world) : bool :=
  (return_code (env_run E h) =? 0)%Z || warn_only (fab w).
Definition printed_word (h : list event) : option string :=
  head (Py.split (stdout (env_run E h))).

Lemma run_unfold command w :
  Image_packet.run E command w =
    (if returns (history w ++ [ev_local w command]) w
     then Ret (stdout (env_run E (history w ++ [ev_local w command])))
     else Raise (RemoteCommandError command),
     set_history (history w ++ [ev_local w command]) w).
Proof.
  unfold Image_packet.run, Fabric.run, returns, ev_local. cbn.
  destruct (_ || _); reflexivity.
Qed.

Lemma first_word_unfold s w :
  Image_packet.first_word s w =
    (match head (Py.split s) with Some x => Ret x | None => Raise IndexError end, w).
Proof. unfold Image_packet.first_word. destruct (Py.split s); reflexivity. Qed.

Definition md5sum_command (image : string) : string := Py.cmd "md5sum {0}" [image].
Definition rm_command (image : string) : string := Py.cmd "rm -f {0}" [image].
Definition wget_command (image : string) : string :=
  Py.cmd "wget -nv {0}" [Image_packet.BASE_URL +:+ image].

(** [download_image] path by path. *)
Definition download_image_paths (image : string) (w : world) : result unit * world :=
  let h0 := history w ++ [ev_exists w image] in
  if env_exists E h0 then
    let h1 := h0 ++ [ev_local w (md5sum_command image)] in
    if returns h1 w then
      match printed_word h1 with
      | None => (Raise IndexError, set_history h1 w)
      | Some local_hash =>
          let h2 := h1 ++ [ev_packet_server w (md5sum_command image)] in
          if returns h2 w then
            match printed_word h2 with
            | None => (Ret tt, set_history h2 w)
            | Some remote_hash =>
                if String.eqb local_hash remote_hash then (Ret tt, set_history h2 w)
                else
                  let h3 := h2 ++ [ev_local w (rm_command image)] in
                  if returns h3 w then
                    (Ret tt, set_history (h3 ++ [ev_local w (wget_command image)]) w)
                  else (Ret tt, set_history h3 w)
            end
          else (Ret tt, set_history h2 w)
      end
    else (Raise (RemoteCommandError (md5sum_command image)), set_history h1 w)
  else
    let h1 := h0 ++ [ev_local w (wget_command image)] in
    (if returns h1 w then Ret tt else Raise (RemoteCommandError (wget_command image)),
     set_history h1 w).

Lemma cd_packet_dir f : cwd (Fabric.cd Image_packet.PACKET_DIR f) = Image_packet.PACKET_DIR.
Proof.
  unfold Fabric.cd.
  change (Fabric.starts_with "/" (Fabric.escape_spaces Image_packet.PACKET_DIR)) with true.
  cbn [cwd negb]. rewrite andb_false_r. reflexivity.
Qed.

Lemma download_image_unfold image w :
  Image_packet.download_image E image w = download_image_paths image w.
Proof.
  unfold Image_packet.download_image, download_image_paths.
  fold (md5sum_command image) (rm_command image) (wget_command image).
  destruct w as [h f so tr en].
  unfold bind, try_except, Fabric.exists_, Fabric.with_settings, ev_exists.
  wsimpl.
  destruct (env_exists E _).
  2:{ rewrite run_unfold. unfold ev_local. wsimpl.
      destruct (returns _ _); reflexivity. }
  rewrite run_unfold. unfold ev_local, returns. wsimpl.
  destruct (_ || _); [|reflexivity].
  rewrite first_word_unfold. unfold printed_word.
  destruct (head _) as [lh|]; [|reflexivity].
  rewrite run_unfold. unfold ev_local, ev_packet_server, returns. wsimpl.
  rewrite cd_packet_dir.
  destruct (_ || _); [|reflexivity].
  rewrite first_word_unfold.
  destruct (head _) as [rh|]; [|reflexivity].
  destruct (String.eqb lh rh); cbn [negb]; [reflexivity|].
  rewrite run_unfold. unfold ev_local, returns. wsimpl.
  destruct (_ || _); [|reflexivity].
  rewrite run_unfold. unfold ev_local, returns. wsimpl.
  destruct (_ || _); reflexivity.
Qed.

End DownloadImage.

(** C5. [download_image] asks whether the archive is on the host.  When
    it is not, the archive is fetched.  When it is, its md5 checksum is
    taken locally and again on the packet server, in the packet
    directory; equal checksums end the function with nothing fetched,
    different ones make it delete the local file and fetch the archive.
    [extract_image] unpacks the archive with the target directory as
    destination. *)
Theorem download_image_spec (E : environment) (image target_dir : string) (w : world) :
  let out := Image_packet.download_image E image w in
  let h0 := history w ++ [ev_exists w image] in
  let h1 := h0 ++ [ev_local w (md5sum_command image)] in
  let h2 := h1 ++ [ev_packet_server w (md5sum_command image)] in
  let h3 := h2 ++ [ev_local w (rm_command image)] in
  let fetch := ev_local w (wget_command image) in
  (env_exists E h0 = false →
     history out.2 = h0 ++ [fetch] ∧ (returns E (h0 ++ [fetch]) w = true → out.1 = Ret tt))
  ∧ (env_exists E h0 = true →
     ∀ local_hash remote_hash,
       returns E h1 w = true → printed_word E h1 = Some local_hash →
       returns E h2 w = true → printed_word E h2 = Some remote_hash →
       (local_hash = remote_hash → out = (Ret tt, set_history h2 w))
       ∧ (local_hash ≠ remote_hash → returns E h3 w = true →
            out = (Ret tt, set_history (h3 ++ [fetch]) w)))
  ∧ md5sum_command image = "md5sum " +:+ Py.quote image
  ∧ rm_command image = "rm -f " +:+ Py.quote image
  ∧ wget_command image = "wget -nv " +:+ Py.quote ("http://files.innogames.de/" +:+ image)
  ∧ history (Image_packet.extract_image E image target_dir w).2 =
      history w ++ [ev_local w ("tar xfz " +:+ Py.quote image +:+ " -C " +:+ Py.quote target_dir)].
Proof.
  cbv zeta. rewrite download_image_unfold. unfold download_image_paths.
  split; [|split].
  - intros ->. cbn [fst snd]. split; [reflexivity|]. intros ->. reflexivity.
  - intros -> lh rh -> -> -> ->. split.
    + intros ->. rewrite String.eqb_refl. reflexivity.
    + intros Hne ->. apply String.eqb_neq in Hne. rewrite Hne. reflexivity.
  - repeat split.
    + unfold md5sum_command. cmd_eq.
    + unfold rm_command. cmd_eq.
    + unfold wget_command. cmd_eq.
    + unfold Image_packet.extract_image, bind. rewrite run_unfold.
      replace (Py.cmd "tar xfz {0} -C {1}" [image; target_dir])
        with ("tar xfz " +:+ Py.quote image +:+ " -C " +:+ Py.quote target_dir) by (symmetry; cmd_eq).
      destruct (returns _ _ _); reflexivity.
Qed.

(** The stale archive of [Fixtures.stale_image] is deleted and fetched
    again: five requests, in this order. *)
Lemma download_image_spec_witness :
  Image_packet.download_image Fixtures.stale_image "jessie.tar.gz" Fixtures.w0 =
    (Ret tt,
     set_history
       [EExists "localhost" "" "jessie.tar.gz";
        ERun "localhost" "" "md5sum jessie.tar.gz" false;
        ERun "packet.ig.local" "/www/files.innogames.de/htdocs" "md5sum jessie.tar.gz" false;
        ERun "localhost" "" "rm -f jessie.tar.gz" false;
        ERun "localhost" "" "wget -nv http://files.innogames.de/jessie.tar.gz" false]
       Fixtures.w0).
Proof.
  destruct (download_image_spec Fixtures.stale_image "jessie.tar.gz" "/mnt/vm1" Fixtures.w0)
    as (_ & Hpresent & _).
  destruct (Hpresent eq_refl "0f343b0931126a20f133d67c2b018a3b" "9e107d9d372bb6826bd81d3542a419d6"
              eq_refl eq_refl eq_refl eq_refl) as [_ Hmismatch].
  apply Hmismatch; [discriminate | reflexivity].
Defined.

(** C9. With a local copy whose checksum has been taken, an exception
    in the comparison with the packet server (its [md5sum] fails, for
    instance because the server cannot be reached, or prints nothing) is
    swallowed: [download_image] returns [None] as in the case of equal
    checksums, and its last request is that [md5sum]; nothing is deleted
    and nothing is fetched. *)
Theorem download_image_swallows (E : environment) (image local_hash : string) (w : world) :
  let out := Image_packet.download_image E image w in
  let h0 := history w ++ [ev_exists w image] in
  let h1 := h0 ++ [ev_local w (md5sum_command image)] in
  let h2 := h1 ++ [ev_packet_server w (md5sum_command image)] in
  env_exists E h0 = true →
  returns E h1 w = true → printed_word E h1 = Some local_hash →
  returns E h2 w = false ∨ printed_word E h2 = None →
  out = (Ret tt, set_history h2 w).
Proof.
  cbv zeta. intros Hex Hr1 Hw1 Hfail.
  rewrite download_image_unfold. unfold download_image_paths.
  rewrite Hex, Hr1, Hw1.
  destruct Hfail as [-> | Hnone]; [reflexivity|].
  rewrite Hnone. destruct (returns E (_ ++ [ev_packet_server _ _]) w); reflexivity.
Qed.

Lemma download_image_swallows_witness :
  Image_packet.download_image Fixtures.packet_server_down "jessie.tar.gz" Fixtures.w0 =
    (Ret tt,
     set_history
       [EExists "localhost" "" "jessie.tar.gz";
        ERun "localhost" "" "md5sum jessie.tar.gz" false;
        ERun "packet.ig.local" "/www/files.innogames.de/htdocs" "md5sum jessie.tar.gz" false]
       Fixtures.w0).
Proof.
  apply (download_image_swallows Fixtures.packet_server_down "jessie.tar.gz"
           "0f343b0931126a20f133d67c2b018a3b" Fixtures.w0);
    [reflexivity | reflexivity | reflexivity | left; reflexivity].
Defined.

(** ** Lists with one marked element *)

Section Marked.
Context {A : Type} (P : A -> bool).

Lemma unmarked_split (l pre post : list A) (e : A) :
  l = pre ++ e :: post → P e = true → Forall (fun x => P x = false) l → False.
Proof.
  intros -> He Hall. apply Forall_app in Hall as [_ Hall].
  inversion Hall; subst. congruence.
Qed.

Lemma marked_split (l1 l2 pre post : list A) (x e : A) :
  l1 ++ x :: l2 = pre ++ e :: post →
  P e = true →
  Forall (fun y => P y = false) l1 → Forall (fun y => P y = false) l2 →
  pre = l1 ∧ e = x ∧ post = l2.
Proof.
  revert pre. induction l1 as [|a l1 IH]; intros pre Heq He H1 H2.
  - destruct pre as [|b pre]; cbn in Heq.
    + inversion Heq; auto.
    + inversion Heq; subst. exfalso.
      eapply (unmarked_split (pre ++ e :: post)); eauto.
  - inversion H1; subst. destruct pre as [|b pre]; cbn in Heq.
    + inversion Heq; subst. congruence.
    + inversion Heq; subst.
      destruct (IH pre) as (-> & -> & ->); auto.
Qed.

End Marked.

(** ** The configuration-management run *)

Section RunPuppet.
Variable E : environment.
Variable hypervisor : Hypervisor.
Variable vm : VM.

(** The directory [cd(target_dir)] leads to: the mount path itself when
    it is absolute or no directory is set around the call. *)
Definition guest_root (w : world) : string :=
  cwd (Fabric.cd (vm_mount_path hypervisor vm) (fab w)).

(** A command run by [hypervisor.run] inside [with cd(target_dir)]. *)
Definition on_hv (w : world) (command : string) : event :=
  ERun (hv_hostname hypervisor) (guest_root w) command (warn_only (fab w)).

Definition chmod_command : string := "chmod +x usr/sbin/policy-rc.d".
Definition unblock_command : string := "rm usr/sbin/policy-rc.d".

Definition block_events (w : world) : list event :=
  [on_hv w Preparevm.block_line_1; on_hv w Preparevm.block_line_2; on_hv w chmod_command].

Definition kill_puppet : compensation :=
  Compensation "Kill puppet" (HypervisorRun (hv_hostname hypervisor))
    [Preparevm.kill_puppet_command vm].

Definition register_events (tx : option transaction_ref) : list event :=
  match tx with Some _ => [EOnRollback kill_puppet] | None => [] end.

Definition registered (tx : option transaction_ref) (t : list compensation) : list compensation :=
  match tx with Some _ => kill_puppet :: t | None => t end.

(** The certificate-clearing step: the request to the controller and
    the line logged after it, or the clean-up on the authority's host. *)
Definition clear_request (ca token : string) : event :=
  EUrlopen ("https://" +:+ ca +:+ ":9000/")
    (Some (Preparevm.clear_params (hostname vm) token)) None.

Definition clear_log (ca : string) (answer : http_outcome) : string :=
  match answer with
  | HttpResponse code body =>
      if (code =? 200)%Z
      then Py.format "Cleared Puppet cert of {} on {}" [hostname vm; ca]
      else Py.format "Failed to clear Puppet cert of {} on {}: {}" [hostname vm; ca; Py.strip body]
  | HttpSocketError msg | HttpURLError msg =>
      Py.format "Failed to clear Puppet cert of {} on {}: {}" [hostname vm; ca; msg]
  end.

Definition clear_events (w : world) (before : list event) (ca : string) : list event :=
  match Py.truthy (environ w !! "PUPPET_CONTROLLER_TOKEN") with
  | Some token =>
      [clear_request ca token;
       ELogInfo (clear_log ca (env_urlopen E (before ++ [clear_request ca token])))]
  | None => [ERun ca (cwd (fab w)) (Preparevm.cert_clean_command vm) true]
  end.

(** The histories a complete run goes through. *)
Definition h_block (w : world) : list event := history w ++ block_events w.
Definition h_clear (clear_cert : bool) (w : world) (ca : string) : list event :=
  h_block w ++ (if clear_cert then clear_events w (h_block w) ca else []).
Definition h_register (clear_cert : bool) (tx : option transaction_ref) (w : world)
    (ca : string) : list event :=
  h_clear clear_cert w ca ++ register_events tx.
Definition h_agent (clear_cert : bool) (tx : option transaction_ref) (w : world)
    (puppet_master ca : string) : list event :=
  h_register clear_cert tx w ca ++ [on_hv w (Preparevm.puppet_agent_command vm puppet_master ca)].
Definition h_unblock (clear_cert : bool) (tx : option transaction_ref) (w : world)
    (puppet_master ca : string) : list event :=
  h_agent clear_cert tx w puppet_master ca ++ [on_hv w unblock_command].

(** The three commands of [block_autostart] all returned. *)
Definition blocked (w : world) : Prop :=
  returns E (history w ++ [on_hv w Preparevm.block_line_1]) w = true
  ∧ returns E (history w ++ [on_hv w Preparevm.block_line_1; on_hv w Preparevm.block_line_2]) w = true
  ∧ returns E (h_block w) w = true.

(** The event is a run of the puppet agent. *)
Definition agent_run (e : event) : bool :=
  match e with
  | ERun _ _ c _ => String.prefix "chroot . /usr/bin/puppet agent" c
  | _ => false
  end.

(** [run_puppet] path by path. *)
Definition run_puppet_paths (clear_cert : bool) (tx : option transaction_ref)
    (w : world) : result unit * world :=
  let at_ h t := World h (fab w) (server_obj w) t (environ w) in
  let b1 := history w ++ [on_hv w Preparevm.block_line_1] in
  let b2 := b1 ++ [on_hv w Preparevm.block_line_2] in
  let b3 := b2 ++ [on_hv w chmod_command] in
  if negb (returns E b1 w) then
    (Raise (RemoteCommandError Preparevm.block_line_1), at_ b1 (transaction w))
  else if negb (returns E b2 w) then
    (Raise (RemoteCommandError Preparevm.block_line_2), at_ b2 (transaction w))
  else if negb (returns E b3 w) then
    (Raise (RemoteCommandError chmod_command), at_ b3 (transaction w))
  else
    match (if clear_cert
           then match server_obj w !! "puppet_ca" with
                | Some ca => Some (b3 ++ clear_events w b3 ca)
                | None => None
                end
           else Some b3) with
    | None => (Raise (KeyError "puppet_ca"), at_ b3 (transaction w))
    | Some c =>
        let r := c ++ register_events tx in
        let t := registered tx (transaction w) in
        match server_obj w !! "puppet_master" with
        | None => (Raise (KeyError "puppet_master"), at_ r t)
        | Some puppet_master =>
            match server_obj w !! "puppet_ca" with
            | None => (Raise (KeyError "puppet_ca"), at_ r t)
            | Some puppet_ca =>
                let agent := Preparevm.puppet_agent_command vm puppet_master puppet_ca in
                let a := r ++ [on_hv w agent] in
                if negb (returns E a w) then (Raise (RemoteCommandError agent), at_ a t)
                else
                  let u := a ++ [on_hv w unblock_command] in
                  (if returns E u w then Ret tt else Raise (RemoteCommandError unblock_command),
                   at_ u t)
            end
        end
    end.

Lemma hv_run_unfold command w :
  Preparevm.hv_run E hypervisor command w =
    let h := history w ++ [ERun (hv_hostname hypervisor) (cwd (fab w)) command (warn_only (fab w))] in
    (if returns E h w then Ret (stdout (env_run E h)) else Raise (RemoteCommandError command),
     set_history h w).
Proof.
  destruct w as [h f so tr en].
  unfold Preparevm.hv_run, Preparevm.hv_fabric_settings, Fabric.with_settings,
    Preparevm.run, Fabric.run, returns.
  wsimpl. destruct (_ || _); reflexivity.
Qed.

Lemma block_autostart_unfold w :
  Preparevm.block_autostart E hypervisor vm w =
    let b1 := history w ++ [on_hv w Preparevm.block_line_1] in
    let b2 := b1 ++ [on_hv w Preparevm.block_line_2] in
    let b3 := b2 ++ [on_hv w chmod_command] in
    if negb (returns E b1 w) then
      (Raise (RemoteCommandError Preparevm.block_line_1), set_history b1 w)
    else if negb (returns E b2 w) then
      (Raise (RemoteCommandError Preparevm.block_line_2), set_history b2 w)
    else (if returns E b3 w then Ret tt else Raise (RemoteCommandError chmod_command),
          set_history b3 w).
Proof.
  destruct w as [h f so tr en].
  unfold Preparevm.block_autostart, Fabric.with_settings, bind, on_hv, guest_root.
  wsimpl.
  rewrite hv_run_unfold. unfold returns. wsimpl.
  destruct (_ || _); [|reflexivity].
  rewrite hv_run_unfold. unfold returns. wsimpl.
  destruct (_ || _); [|reflexivity].
  rewrite hv_run_unfold. unfold returns. wsimpl.
  destruct (_ || _); reflexivity.
Qed.

Lemma unblock_autostart_unfold w :
  Preparevm.unblock_autostart E hypervisor vm w =
    let u := history w ++ [on_hv w unblock_command] in
    (if returns E u w then Ret tt else Raise (RemoteCommandError unblock_command),
     set_history u w).
Proof.
  destruct w as [h f so tr en].
  unfold Preparevm.unblock_autostart, Fabric.with_settings, bind, on_hv, guest_root.
  wsimpl.
  rewrite hv_run_unfold. unfold returns. wsimpl.
  destruct (_ || _); reflexivity.
Qed.

Lemma run_puppet_unfold clear_cert tx w :
  Preparevm.run_puppet E hypervisor vm clear_cert tx w = run_puppet_paths clear_cert tx w.
Proof.
  unfold Preparevm.run_puppet, run_puppet_paths.
  unfold bind at 1. rewrite block_autostart_unfold. cbv zeta.
  destruct w as [h f so tr en]. wsimpl.
  destruct (returns E (h ++ _) _); cbn [negb]; [|reflexivity].
  destruct (returns E ((h ++ _) ++ _) _); cbn [negb]; [|reflexivity].
  destruct (returns E (((h ++ _) ++ _) ++ _) _); cbn [negb]; [|reflexivity].
  unfold bind at 1.
  (* the certificate step *)
  set (b3 := ((h ++ _) ++ _) ++ _).
  assert (Hclear :
    (if clear_cert
     then bind (server_obj_get "puppet_ca") (fun puppet_ca =>
          bind (environ_get "PUPPET_CONTROLLER_TOKEN") (fun controller_token =>
            match Py.truthy controller_token with
            | Some token =>
                try_except
                  (bind (Preparevm._clear_cert_controller E (hostname vm) puppet_ca token)
                     (fun _ => log_info (Py.format "Cleared Puppet cert of {} on {}"
                                           [hostname vm; puppet_ca])))
                  (fun e => match e with IGVMError _ => true | _ => false end)
                  (fun e => log_info (Py.format "Failed to clear Puppet cert of {} on {}: {}"
                                        [hostname vm; puppet_ca;
                                         match e with IGVMError msg => msg | _ => "" end]))
            | None =>
                Fabric.with_settings
                  (fun f0 => Fabric.set_warn_only true (Fabric.set_host puppet_ca f0))
                  (bind (Preparevm.run E (Preparevm.cert_clean_command vm) true) (fun _ => ret tt))
            end))
     else ret tt) (set_history b3 (World h f so tr en)) =
    match (if clear_cert
           then match so !! "puppet_ca" with
                | Some ca => Some (b3 ++ clear_events (World h f so tr en) b3 ca)
                | None => None
                end
           else Some b3) with
    | None => (Raise (KeyError "puppet_ca"), World b3 f so tr en)
    | Some c => (Ret tt, World c f so tr en)
    end).
  { destruct clear_cert; [|reflexivity].
    unfold bind at 1, server_obj_get. wsimpl.
    destruct (so !! "puppet_ca") as [ca|]; [|reflexivity].
    unfold bind at 1, environ_get, clear_events. wsimpl.
    destruct (Py.truthy _) as [token|].
    - unfold try_except, bind. rewrite clear_cert_controller_run. wsimpl.
      unfold clear_request, clear_log, log_info, emit. wsimpl.
      destruct (env_urlopen E _) as [code body|msg|msg];
        [destruct (code =? 200)%Z| |]; wsimpl; rewrite <- app_assoc; reflexivity.
    - unfold Fabric.with_settings, bind, Preparevm.run, Fabric.run. wsimpl.
      rewrite orb_true_r. reflexivity. }
  rewrite Hclear. clear Hclear.
  destruct (if clear_cert then _ else _) as [c|]; [|reflexivity].
  unfold bind at 1, Fabric.with_settings. wsimpl.
  unfold bind at 1.
  assert (Hreg :
    match tx with
    | Some _ => on_rollback "Kill puppet" (HypervisorRun (hv_hostname hypervisor))
                  [Preparevm.kill_puppet_command vm]
    | None => ret tt
    end (set_fab (Fabric.cd (vm_mount_path hypervisor vm) f) (World c f so tr en)) =
    (Ret tt, World (c ++ register_events tx) (Fabric.cd (vm_mount_path hypervisor vm) f)
               so (registered tx tr) en)).
  { destruct tx; [reflexivity|]. cbn. rewrite app_nil_r. reflexivity. }
  rewrite Hreg. clear Hreg.
  unfold bind at 1, server_obj_get. wsimpl.
  destruct (so !! "puppet_master") as [pm|]; [|reflexivity].
  unfold bind at 1. wsimpl.
  destruct (so !! "puppet_ca") as [ca|]; [|reflexivity].
  unfold bind at 1. rewrite hv_run_unfold. unfold returns, on_hv, guest_root. wsimpl.
  destruct (_ || _); cbn [negb]; [|reflexivity].
  unfold bind, ret. rewrite unblock_autostart_unfold. unfold returns, on_hv, guest_root. wsimpl.
  destruct (_ || _); reflexivity.
Qed.

(** Once the guest is blocked and the inventory record names the puppet
    master and the authority, the agent is run, whatever the clearing
    step met. *)
Lemma run_puppet_reaches_agent clear_cert tx w puppet_master ca :
  blocked w →
  server_obj w !! "puppet_master" = Some puppet_master →
  server_obj w !! "puppet_ca" = Some ca →
  let out := Preparevm.run_puppet E hypervisor vm clear_cert tx w in
  let a := h_agent clear_cert tx w puppet_master ca in
  let u := h_unblock clear_cert tx w puppet_master ca in
  transaction out.2 = registered tx (transaction w)
  ∧ fab out.2 = fab w
  ∧ (if returns E a w
     then history out.2 = u
          ∧ out.1 = (if returns E u w then Ret tt
                     else Raise (RemoteCommandError unblock_command))
     else history out.2 = a
          ∧ out.1 = Raise (RemoteCommandError
                             (Preparevm.puppet_agent_command vm puppet_master ca))).
Proof.
  intros (B1 & B2 & B3) Hpm Hca. cbv zeta.
  rewrite run_puppet_unfold. unfold run_puppet_paths.
  unfold h_unblock, h_agent, h_register, h_clear, h_block, block_events in *.
  cbv zeta.
  rewrite <- !app_assoc in *. cbn [app] in *.
  rewrite B1, B2, B3, Hpm, Hca. cbn [negb]. clear B1 B2 B3.
  destruct clear_cert; rewrite <- !app_assoc; cbn [app];
    match goal with
    | |- context [negb (returns E ?h w)] => destruct (returns E h w)
    end; cbn [negb]; wsimpl; auto.
Qed.

(** No event of the list is a run of the agent. *)
Definition quiet (l : list event) : Prop := Forall (fun e => agent_run e = false) l.

Lemma quiet_app l1 l2 : quiet l1 → quiet l2 → quiet (l1 ++ l2).
Proof. intros H1 H2. apply Forall_app; auto. Qed.

Lemma quiet_block w : quiet (block_events w).
Proof. unfold quiet. repeat constructor. Qed.

Lemma quiet_clear w before ca : quiet (clear_events w before ca).
Proof. unfold quiet, clear_events. destruct (Py.truthy _); repeat constructor. Qed.

Lemma quiet_register tx : quiet (register_events tx).
Proof. unfold quiet. destruct tx; repeat constructor. Qed.

Lemma agent_run_agent w puppet_master ca :
  agent_run (on_hv w (Preparevm.puppet_agent_command vm puppet_master ca)) = true.
Proof. reflexivity. Qed.

(** What a run adds to the history: either no agent run at all, or the
    events of a complete run up to the agent, and after it at most the
    removal of the block. *)
Lemma run_puppet_new clear_cert tx w :
  let out := Preparevm.run_puppet E hypervisor vm clear_cert tx w in
  ∃ new, history out.2 = history w ++ new
    ∧ (quiet new
       ∨ (blocked w
          ∧ ∃ puppet_master ca tail,
              server_obj w !! "puppet_master" = Some puppet_master
              ∧ server_obj w !! "puppet_ca" = Some ca
              ∧ history w ++ new = h_agent clear_cert tx w puppet_master ca ++ tail
              ∧ quiet tail)).
Proof.
  cbv zeta. rewrite run_puppet_unfold. unfold run_puppet_paths. cbv zeta.
  destruct (returns E (history w ++ [_]) w) eqn:B1; cbn [negb].
  2:{ eexists; split; [reflexivity|]. left. unfold quiet. repeat constructor. }
  destruct (returns E ((history w ++ [_]) ++ [_]) w) eqn:B2; cbn [negb].
  2:{ eexists; split; [wsimpl; rewrite <- app_assoc; reflexivity|].
      left. unfold quiet. repeat constructor. }
  destruct (returns E (((history w ++ [_]) ++ [_]) ++ [_]) w) eqn:B3; cbn [negb].
  2:{ eexists; split; [wsimpl; rewrite <- !app_assoc; reflexivity|].
      left. unfold quiet. repeat constructor. }
  assert (Hb : blocked w).
  { unfold blocked, h_block, block_events.
    rewrite <- app_assoc in B2. repeat rewrite <- app_assoc in B3.
    cbn [app] in B2, B3. auto. }
  assert (Hb3 : ((history w ++ [on_hv w Preparevm.block_line_1])
                   ++ [on_hv w Preparevm.block_line_2]) ++ [on_hv w chmod_command]
                = h_block w).
  { unfold h_block, block_events. rewrite <- !app_assoc. reflexivity. }
  rewrite Hb3. clear B1 B2 B3.
  assert (Hc : ∀ ca,
    (if clear_cert
     then match server_obj w !! "puppet_ca" with
          | Some ca0 => Some (h_block w ++ clear_events w (h_block w) ca0)
          | None => None
          end
     else Some (h_block w)) = None
    ∨ ((if clear_cert
        then match server_obj w !! "puppet_ca" with
             | Some ca0 => Some (h_block w ++ clear_events w (h_block w) ca0)
             | None => None
             end
        else Some (h_block w)) = Some (h_clear clear_cert w ca)
       ∨ server_obj w !! "puppet_ca" ≠ Some ca)).
  { intros ca. unfold h_clear. destruct clear_cert.
    - destruct (server_obj w !! "puppet_ca") as [ca0|]; [|auto].
      right. destruct (decide (ca0 = ca)) as [->|Hne]; [auto|]. right. congruence.
    - right. left. rewrite app_nil_r. reflexivity. }
  destruct (if clear_cert then _ else _) as [c|] eqn:Hclear.
  2:{ exists (block_events w). split; [reflexivity|]. left. apply quiet_block. }
  assert (Hq : ∃ cl, c = h_block w ++ cl ∧ quiet cl).
  { destruct clear_cert.
    - destruct (server_obj w !! "puppet_ca") as [ca0|]; [|discriminate].
      injection Hclear as <-. eexists; split; [reflexivity|]. apply quiet_clear.
    - injection Hclear as <-. exists []. rewrite app_nil_r. split; [reflexivity|constructor]. }
  destruct Hq as (cl & -> & Hcl).
  destruct (server_obj w !! "puppet_master") as [pm|] eqn:Hpm.
  2:{ exists (block_events w ++ cl ++ register_events tx). split.
      - wsimpl. unfold h_block. rewrite <- !app_assoc. reflexivity.
      - left. auto using quiet_app, quiet_block, quiet_register. }
  destruct (server_obj w !! "puppet_ca") as [ca|] eqn:Hca.
  2:{ exists (block_events w ++ cl ++ register_events tx). split.
      - wsimpl. unfold h_block. rewrite <- !app_assoc. reflexivity.
      - left. auto using quiet_app, quiet_block, quiet_register. }
  assert (Hreg : (h_block w ++ cl) ++ register_events tx = h_register clear_cert tx w ca).
  { destruct (Hc ca) as [H|[H|H]]; [discriminate| |congruence].
    injection H as H. unfold h_register. rewrite H. reflexivity. }
  rewrite Hreg. fold (h_agent clear_cert tx w pm ca).
  assert (Hagent : ∃ front, h_agent clear_cert tx w pm ca = history w ++ front).
  { unfold h_agent, h_register, h_clear, h_block. rewrite <- !app_assoc. eauto. }
  destruct Hagent as [front Hfront].
  destruct (returns E (h_agent clear_cert tx w pm ca) w); cbn [negb].
  - exists (front ++ [on_hv w unblock_command]). wsimpl. split.
    + rewrite Hfront, <- app_assoc. reflexivity.
    + right. split; [assumption|]. exists pm, ca, [on_hv w unblock_command].
      rewrite app_assoc, <- Hfront. repeat split; auto. unfold quiet. repeat constructor.
  - exists front. wsimpl. split; [assumption|].
    right. split; [assumption|]. exists pm, ca, [].
    rewrite <- Hfront, app_nil_r. repeat split; auto. constructor.
Qed.

(** The events of a complete run before the agent: the block, the
    clearing step when asked for, the registration when there is a
    transaction. *)
Definition before_agent (clear_cert : bool) (tx : option transaction_ref) (w : world)
    (ca : string) : list event :=
  block_events w
    ++ (if clear_cert then clear_events w (h_block w) ca else [])
    ++ register_events tx.

Lemma h_agent_split clear_cert tx w puppet_master ca :
  h_agent clear_cert tx w puppet_master ca =
    history w ++ before_agent clear_cert tx w ca
      ++ [on_hv w (Preparevm.puppet_agent_command vm puppet_master ca)].
Proof.
  unfold h_agent, h_register, h_clear, h_block, before_agent.
  rewrite <- !app_assoc. reflexivity.
Qed.

Lemma quiet_before_agent clear_cert tx w ca : quiet (before_agent clear_cert tx w ca).
Proof.
  unfold before_agent. apply quiet_app; [apply quiet_block|].
  apply quiet_app; [|apply quiet_register].
  destruct clear_cert; [apply quiet_clear|constructor].
Qed.

(** Where a run of the agent stands in what [run_puppet] added to the
    history. *)
Lemma agent_placement clear_cert tx w pre e post :
  let out := Preparevm.run_puppet E hypervisor vm clear_cert tx w in
  history out.2 = history w ++ pre ++ e :: post →
  agent_run e = true →
  blocked w
  ∧ ∃ puppet_master ca,
      server_obj w !! "puppet_master" = Some puppet_master
      ∧ server_obj w !! "puppet_ca" = Some ca
      ∧ pre = before_agent clear_cert tx w ca
      ∧ e = on_hv w (Preparevm.puppet_agent_command vm puppet_master ca)
      ∧ quiet post.
Proof.
  cbv zeta. intros Hh He.
  destruct (run_puppet_new clear_cert tx w) as (new & Hnew & Hcases).
  cbv zeta in Hnew. rewrite Hnew in Hh. apply app_inv_head in Hh.
  destruct Hcases as [Hq | (Hb & pm & ca & tail & Hpm & Hca & Heq & Htail)].
  - exfalso. eapply (unmarked_split agent_run); eauto.
  - split; [assumption|]. exists pm, ca.
    rewrite h_agent_split, <- !app_assoc in Heq. apply app_inv_head in Heq.
    cbn [app] in Heq. rewrite Hh in Heq. symmetry in Heq.
    apply (marked_split agent_run) in Heq as (-> & -> & ->);
      auto; apply quiet_before_agent.
Qed.

(** A run that returns went through every step. *)
Lemma run_puppet_returns clear_cert tx w :
  let out := Preparevm.run_puppet E hypervisor vm clear_cert tx w in
  out.1 = Ret tt →
  blocked w
  ∧ ∃ puppet_master ca,
      server_obj w !! "puppet_master" = Some puppet_master
      ∧ server_obj w !! "puppet_ca" = Some ca
      ∧ returns E (h_agent clear_cert tx w puppet_master ca) w = true
      ∧ returns E (h_unblock clear_cert tx w puppet_master ca) w = true
      ∧ history out.2 = h_unblock clear_cert tx w puppet_master ca.
Proof.
  cbv zeta. intros Hret.
  destruct (run_puppet_new clear_cert tx w) as (new & Hnew & Hcases).
  cbv zeta in Hnew.
  assert (Hb : blocked w ∧ ∃ pm ca, server_obj w !! "puppet_master" = Some pm
                                    ∧ server_obj w !! "puppet_ca" = Some ca).
  { destruct Hcases as [Hq | (Hb & pm & ca & tail & Hpm & Hca & _)]; [|eauto].
    exfalso. revert Hret Hnew Hq.
    rewrite run_puppet_unfold. unfold run_puppet_paths. cbv zeta.
    repeat match goal with
           | |- context [negb (returns E ?h w)] =>
               destruct (returns E h w); cbn [negb fst snd]; try discriminate
           | |- context [server_obj w !! ?k] =>
               destruct (server_obj w !! k); try discriminate
           | |- context [if clear_cert then _ else _] =>
               destruct clear_cert; cbn [fst snd]; try discriminate
           end.
    all: wsimpl; intros _ Hnew Hq; rewrite <- !app_assoc in Hnew;
      apply app_inv_head in Hnew; subst new;
      repeat (apply Forall_app in Hq as [? Hq] || (inversion Hq; subst; clear Hq));
      repeat match goal with
             | H : agent_run (on_hv _ (Preparevm.puppet_agent_command _ _ _)) = false |- _ =>
                 discriminate H
             | H : Forall _ (_ :: _) |- _ => inversion H; subst; clear H
             | H : Forall _ (_ ++ _) |- _ => apply Forall_app in H as [? ?]
             end. }
  destruct Hb as (Hb & pm & ca & Hpm & Hca). split; [assumption|]. exists pm, ca.
  destruct (run_puppet_reaches_agent clear_cert tx w pm ca Hb Hpm Hca) as (_ & _ & Hrun).
  cbv zeta in Hrun.
  destruct (returns E (h_agent clear_cert tx w pm ca) w).
  - destruct Hrun as [Hh Hr]. rewrite Hr in Hret.
    destruct (returns E (h_unblock clear_cert tx w pm ca) w); [auto|discriminate].
  - destruct Hrun as [_ Hr]. rewrite Hr in Hret. discriminate.
Qed.

End RunPuppet.

(** C2. With a transaction, whenever [run_puppet] runs the agent on the
    hypervisor, the event just before it is the registration of the
    compensation "Kill puppet": [hypervisor.run] of a [pkill -9 -f] on the
    agent's command line with the VM's FQDN.  The compensation is on the
    transaction when [run_puppet] ends, in particular when the agent
    failed and [run_puppet] raises. *)
Theorem run_puppet_registers_kill_first (E : environment) (hypervisor : Hypervisor) (vm : VM)
    (clear_cert : bool) (w : world) :
  let out := Preparevm.run_puppet E hypervisor vm clear_cert (Some CurrentTransaction) w in
  let kill := kill_puppet hypervisor vm in
  description kill = "Kill puppet"
  ∧ action kill = HypervisorRun (hv_hostname hypervisor)
  ∧ action_args kill =
      ["pkill -9 -f " +:+ Py.dq +:+ "/usr/bin/puppet agent -v --fqdn=" +:+ fqdn vm +:+ Py.dq]
  ∧ ∀ pre e post,
      history out.2 = history w ++ pre ++ e :: post →
      agent_run e = true →
      (∃ earlier, pre = earlier ++ [EOnRollback kill])
      ∧ transaction out.2 = kill :: transaction w
      ∧ (returns E (history w ++ pre ++ [e]) w = false →
           post = [] ∧ ∃ command, out.1 = Raise (RemoteCommandError command)).
Proof.
  cbv zeta. split; [reflexivity|]. split; [reflexivity|]. split.
  { reflexivity. }
  intros pre e post Hh He.
  destruct (agent_placement E hypervisor vm clear_cert (Some CurrentTransaction) w pre e post Hh He)
    as (Hb & pm & ca & Hpm & Hca & -> & -> & Hpost).
  destruct (run_puppet_reaches_agent E hypervisor vm clear_cert (Some CurrentTransaction)
              w pm ca Hb Hpm Hca) as (Htx & _ & Hrun).
  cbv zeta in Hrun. split; [|split].
  - unfold before_agent, register_events. rewrite !app_assoc. eauto.
  - exact Htx.
  - intros Hfail. rewrite <- h_agent_split in Hfail. rewrite Hfail in Hrun.
    destruct Hrun as [Hhist Hr]. split; [|eauto].
    rewrite Hhist, h_agent_split in Hh.
    apply app_inv_head, app_inv_head in Hh.
    now injection Hh as <-.
Qed.

(** When the agent fails, [run_puppet] raises and leaves the kill
    compensation on the transaction. *)
Lemma run_puppet_registers_kill_first_witness :
  let out := Preparevm.run_puppet Fixtures.agent_fails Fixtures.hv1 Fixtures.vm1 false
               (Some CurrentTransaction) Fixtures.w0 in
  transaction out.2 = [kill_puppet Fixtures.hv1 Fixtures.vm1]
  ∧ ∃ command, out.1 = Raise (RemoteCommandError command).
Proof.
  cbv zeta.
  destruct (run_puppet_registers_kill_first Fixtures.agent_fails Fixtures.hv1 Fixtures.vm1
              false Fixtures.w0) as (_ & _ & _ & H).
  destruct (H (before_agent Fixtures.agent_fails Fixtures.hv1 Fixtures.vm1 false
                 (Some CurrentTransaction) Fixtures.w0 "ca.ig.local")
              (on_hv Fixtures.hv1 Fixtures.vm1 Fixtures.w0
                 (Preparevm.puppet_agent_command Fixtures.vm1 "puppet.ig.local" "ca.ig.local"))
              []) as (_ & Htx & Hfail); [vm_compute; reflexivity | vm_compute; reflexivity |].
  split; [exact Htx|]. apply Hfail. vm_compute. reflexivity.
Defined.

(** C3 as it is worded.  Every invocation that invokes the agent removes
    the block after the agent run: [rm usr/sbin/policy-rc.d] is among
    the requests that follow the agent and exits with status 0. *)
Definition unblocks_after_agent (E : environment) (hypervisor : Hypervisor) (vm : VM)
    (clear_cert : bool) (tx : option transaction_ref) (w : world) : Prop :=
  let out := Preparevm.run_puppet E hypervisor vm clear_cert tx w in
  let unblock := on_hv hypervisor vm w unblock_command in
  ∀ pre e post,
    history out.2 = history w ++ pre ++ e :: post →
    agent_run e = true →
    ∃ mid rest,
      post = mid ++ unblock :: rest
      ∧ return_code (env_run E (history w ++ pre ++ e :: mid ++ [unblock])) = 0%Z.

(** Every invocation that invokes the agent has installed the block
    before: the three commands of the block come first and exited with
    status 0. *)
Definition blocks_before_agent (E : environment) (hypervisor : Hypervisor) (vm : VM)
    (clear_cert : bool) (tx : option transaction_ref) (w : world) : Prop :=
  let out := Preparevm.run_puppet E hypervisor vm clear_cert tx w in
  ∀ pre e post,
    history out.2 = history w ++ pre ++ e :: post →
    agent_run e = true →
    (∃ rest, pre = block_events hypervisor vm w ++ rest)
    ∧ ∀ k, (1 ≤ k ≤ 3)%nat →
        return_code (env_run E (history w ++ firstn k (block_events hypervisor vm w))) = 0%Z.

(** After [run_puppet] returns the block is gone: the last request was
    its removal, which exited with status 0. *)
Definition unblocked_on_return (E : environment) (hypervisor : Hypervisor) (vm : VM)
    (clear_cert : bool) (tx : option transaction_ref) (w : world) : Prop :=
  let out := Preparevm.run_puppet E hypervisor vm clear_cert tx w in
  out.1 = Ret tt →
  ∃ front,
    history out.2 = front ++ [on_hv hypervisor vm w unblock_command]
    ∧ return_code (env_run E (history out.2)) = 0%Z.

(** C3, the counterexample.  When the agent fails, [run_puppet] raises
    with the agent run as its last request: nothing removes the block.
    And in warn-only mode [run_puppet] returns although the removal of
    the block failed, and runs the agent although the block could not be
    written. *)
Lemma run_puppet_leaves_block :
  ¬ unblocks_after_agent Fixtures.agent_fails Fixtures.hv1 Fixtures.vm1 false None Fixtures.w0
  ∧ (Preparevm.run_puppet Fixtures.unblock_fails Fixtures.hv1 Fixtures.vm1 false None
       Fixtures.w0_warn).1 = Ret tt
  ∧ ¬ unblocked_on_return Fixtures.unblock_fails Fixtures.hv1 Fixtures.vm1 false None
        Fixtures.w0_warn
  ∧ ¬ blocks_before_agent Fixtures.block_fails Fixtures.hv1 Fixtures.vm1 false None
        Fixtures.w0_warn.
Proof.
  split; [|split; [|split]]; cycle 3.
  { intros H.
    destruct (H (block_events Fixtures.hv1 Fixtures.vm1 Fixtures.w0_warn)
                (ERun "hv1.test.ig.local" "/mnt/vm1"
                   ("chroot . /usr/bin/puppet agent -v --fqdn=vm1.test.ig.local"
                      +:+ " --server puppet.ig.local --ca_server ca.ig.local --no-report"
                      +:+ " --waitforcert=60 --onetime --no-daemonize"
                      +:+ " --tags=network,puppet --skip_tags=nrpe") true)
                [ERun "hv1.test.ig.local" "/mnt/vm1" "rm usr/sbin/policy-rc.d" true])
      as (_ & Hcode); [vm_compute; reflexivity | vm_compute; reflexivity |].
    specialize (Hcode 1%nat ltac:(lia)).
    assert (Hone : return_code
                     (env_run Fixtures.block_fails
                        (history Fixtures.w0_warn
                           ++ firstn 1 (block_events Fixtures.hv1 Fixtures.vm1 Fixtures.w0_warn)))
                   = 1%Z) by (vm_compute; reflexivity).
    rewrite Hone in Hcode. discriminate Hcode. }
  - intros H.
    destruct (H (block_events Fixtures.hv1 Fixtures.vm1 Fixtures.w0)
                (ERun "hv1.test.ig.local" "/mnt/vm1"
                   ("chroot . /usr/bin/puppet agent -v --fqdn=vm1.test.ig.local"
                      +:+ " --server puppet.ig.local --ca_server ca.ig.local --no-report"
                      +:+ " --waitforcert=60 --onetime --no-daemonize"
                      +:+ " --tags=network,puppet --skip_tags=nrpe") false)
                [])
      as (mid & rest & Hpost & _); [vm_compute; reflexivity | vm_compute; reflexivity |].
    destruct mid; discriminate Hpost.
  - vm_compute. reflexivity.
  - intros H.
    assert (Hret : (Preparevm.run_puppet Fixtures.unblock_fails Fixtures.hv1 Fixtures.vm1
                      false None Fixtures.w0_warn).1 = Ret tt) by (vm_compute; reflexivity).
    destruct (H Hret) as (_ & _ & Hcode). vm_compute in Hcode. discriminate Hcode.
Qed.

(** C3, amended.  In every invocation of [run_puppet], a run of the
    agent comes after the three commands of [block_autostart] (two
    [echo ... >> usr/sbin/policy-rc.d] lines and the [chmod +x], in the
    guest root on the hypervisor), all three having returned, with
    status 0 when warn-only is off.  If the agent run returns, the next
    and last request is [rm usr/sbin/policy-rc.d] in the same directory,
    and [run_puppet] returns exactly when that one returned; if the
    agent run fails, it is the last request and [run_puppet] raises:
    the block is not removed.  Whenever [run_puppet] returns, the agent
    has run once and the removal came right after it, with status 0 when
    warn-only is off. *)
Theorem run_puppet_blocks_autostart (E : environment) (hypervisor : Hypervisor) (vm : VM)
    (clear_cert : bool) (tx : option transaction_ref) (w : world) :
  let out := Preparevm.run_puppet E hypervisor vm clear_cert tx w in
  let root := guest_root hypervisor vm w in
  let hv_run c := ERun (hv_hostname hypervisor) root c (warn_only (fab w)) in
  block_events hypervisor vm w =
    [hv_run ("echo " +:+ Py.dq +:+ "#!/bin/sh" +:+ Py.dq +:+ " >> usr/sbin/policy-rc.d");
     hv_run ("echo " +:+ Py.dq +:+ "exit 101" +:+ Py.dq +:+ "  >> usr/sbin/policy-rc.d");
     hv_run "chmod +x usr/sbin/policy-rc.d"]
  ∧ (∀ pre e post,
       history out.2 = history w ++ pre ++ e :: post →
       agent_run e = true →
       blocked E hypervisor vm w
       ∧ (warn_only (fab w) = false →
            ∀ k, (1 ≤ k ≤ 3)%nat →
              return_code (env_run E (history w ++ firstn k (block_events hypervisor vm w)))
                = 0%Z)
       ∧ (∃ rest, pre = block_events hypervisor vm w ++ rest)
       ∧ (if returns E (history w ++ pre ++ [e]) w
          then post = [hv_run "rm usr/sbin/policy-rc.d"]
               ∧ (out.1 = Ret tt ↔ returns E (history out.2) w = true)
          else post = [] ∧ ∃ command, out.1 = Raise (RemoteCommandError command)))
  ∧ (out.1 = Ret tt →
       ∃ mid agent,
         quiet mid ∧ agent_run agent = true
         ∧ history out.2 =
             history w ++ block_events hypervisor vm w ++ mid
               ++ [agent; hv_run "rm usr/sbin/policy-rc.d"]
         ∧ returns E (history w ++ block_events hypervisor vm w ++ mid ++ [agent]) w = true
         ∧ returns E (history out.2) w = true
         ∧ (warn_only (fab w) = false → return_code (env_run E (history out.2)) = 0%Z)).
Proof.
  cbv zeta. split; [reflexivity|]. split.
  - intros pre e post Hh He.
    destruct (agent_placement E hypervisor vm clear_cert tx w pre e post Hh He)
      as (Hb & pm & ca & Hpm & Hca & -> & -> & _).
    split; [assumption|]. split; [|split].
    + intros Hwarn k Hk. destruct Hb as (B1 & B2 & B3).
      unfold returns in B1, B2, B3. rewrite Hwarn, orb_false_r in B1, B2, B3.
      apply Z.eqb_eq in B1, B2, B3.
      destruct k as [|[|[|[|k]]]]; [lia | exact B1 | exact B2 | exact B3 | lia].
    + unfold before_agent. eauto.
    + destruct (run_puppet_reaches_agent E hypervisor vm clear_cert tx w pm ca Hb Hpm Hca)
        as (_ & _ & Hrun).
      cbv zeta in Hrun. rewrite <- h_agent_split.
      destruct (returns E (h_agent E hypervisor vm clear_cert tx w pm ca) w);
        destruct Hrun as [Hhist Hr].
      * split.
        -- rewrite Hhist in Hh. unfold h_unblock in Hh. rewrite h_agent_split in Hh.
           rewrite <- !app_assoc in Hh.
           apply app_inv_head, app_inv_head in Hh. cbn [app] in Hh.
           now injection Hh as <-.
        -- rewrite Hr, Hhist.
           destruct (returns E (h_unblock E hypervisor vm clear_cert tx w pm ca) w);
             split; intros H; [reflexivity | reflexivity | discriminate H | discriminate H].
      * split; [|eauto].
        rewrite Hhist, h_agent_split in Hh.
        apply app_inv_head, app_inv_head in Hh.
        now injection Hh as <-.
  - intros Hret.
    destruct (run_puppet_returns E hypervisor vm clear_cert tx w Hret)
      as (_ & pm & ca & _ & _ & Ha & Hu & Hh).
    rewrite Hh.
    exists ((if clear_cert then clear_events E vm w (h_block hypervisor vm w) ca else [])
              ++ register_events hypervisor vm tx),
           (on_hv hypervisor vm w (Preparevm.puppet_agent_command vm pm ca)).
    split; [|split; [reflexivity|]].
    { apply quiet_app; [|apply quiet_register].
      destruct clear_cert; [apply quiet_clear|constructor]. }
    assert (Hsplit : h_unblock E hypervisor vm clear_cert tx w pm ca =
                     history w ++ block_events hypervisor vm w
                       ++ ((if clear_cert
                            then clear_events E vm w (h_block hypervisor vm w) ca else [])
                           ++ register_events hypervisor vm tx)
                       ++ [on_hv hypervisor vm w (Preparevm.puppet_agent_command vm pm ca);
                           on_hv hypervisor vm w unblock_command]).
    { unfold h_unblock. rewrite h_agent_split. unfold before_agent.
      rewrite <- !app_assoc. reflexivity. }
    split; [exact Hsplit|]. split; [|split; [exact Hu|]].
    + rewrite h_agent_split in Ha. unfold before_agent in Ha.
      rewrite <- !app_assoc in Ha. rewrite <- !app_assoc. exact Ha.
    + intros Hwarn. unfold returns in Hu. rewrite Hwarn, orb_false_r in Hu.
      now apply Z.eqb_eq in Hu.
Qed.

(** A run in which everything succeeds: seven commands, the block
    first, the removal of the block last. *)
Lemma run_puppet_blocks_autostart_witness :
  let out := Preparevm.run_puppet Fixtures.all_fine Fixtures.hv1 Fixtures.vm1 false None
               Fixtures.w0 in
  out.1 = Ret tt
  ∧ ∃ mid agent,
      history out.2 =
        block_events Fixtures.hv1 Fixtures.vm1 Fixtures.w0 ++ mid
          ++ [agent; ERun "hv1.test.ig.local" "/mnt/vm1" "rm usr/sbin/policy-rc.d" false].
Proof.
  cbv zeta. split; [reflexivity|].
  destruct (run_puppet_blocks_autostart Fixtures.all_fine Fixtures.hv1 Fixtures.vm1 false None
              Fixtures.w0) as (_ & _ & H).
  destruct (H eq_refl) as (mid & agent & _ & _ & Hh & _).
  exists mid, agent. exact Hh.
Defined.

(** When the agent fails, [run_puppet] raises with the agent's run as
    its last request: the block installed before it is not removed. *)
Lemma run_puppet_agent_failure_keeps_block (E : environment) (hypervisor : Hypervisor) (vm : VM)
    (clear_cert : bool) (tx : option transaction_ref) (w : world) (puppet_master ca : string) :
  blocked E hypervisor vm w →
  server_obj w !! "puppet_master" = Some puppet_master →
  server_obj w !! "puppet_ca" = Some ca →
  returns E (h_agent E hypervisor vm clear_cert tx w puppet_master ca) w = false →
  let out := Preparevm.run_puppet E hypervisor vm clear_cert tx w in
  out.1 = Raise (RemoteCommandError (Preparevm.puppet_agent_command vm puppet_master ca))
  ∧ history out.2 = h_agent E hypervisor vm clear_cert tx w puppet_master ca
  ∧ ¬ In (on_hv hypervisor vm w unblock_command)
        (before_agent E hypervisor vm clear_cert tx w ca
           ++ [on_hv hypervisor vm w (Preparevm.puppet_agent_command vm puppet_master ca)]).
Proof.
  intros Hb Hpm Hca Hfail. cbv zeta.
  destruct (run_puppet_reaches_agent E hypervisor vm clear_cert tx w puppet_master ca Hb Hpm Hca)
    as (_ & _ & Hrun).
  cbv zeta in Hrun. rewrite Hfail in Hrun. destruct Hrun as [Hh Hr].
  split; [exact Hr|]. split; [exact Hh|].
  unfold before_agent, block_events, clear_events, register_events, on_hv.
  rewrite !in_app_iff. cbn [In].
  destruct clear_cert; [destruct (Py.truthy _)|]; destruct tx; cbn [In]; intros H;
    repeat match goal with
           | H : _ ∨ _ |- _ => destruct H as [H|H]
           | H : False |- _ => destruct H
           end; discriminate H.
Qed.

Lemma run_puppet_agent_failure_keeps_block_witness :
  let out := Preparevm.run_puppet Fixtures.agent_fails Fixtures.hv1 Fixtures.vm1 false None
               Fixtures.w0 in
  out.1 = Raise (RemoteCommandError
                   (Preparevm.puppet_agent_command Fixtures.vm1 "puppet.ig.local" "ca.ig.local"))
  ∧ ¬ In (ERun "hv1.test.ig.local" "/mnt/vm1" "rm usr/sbin/policy-rc.d" false) (history out.2).
Proof.
  cbv zeta.
  destruct (run_puppet_agent_failure_keeps_block Fixtures.agent_fails Fixtures.hv1 Fixtures.vm1
              false None Fixtures.w0 "puppet.ig.local" "ca.ig.local")
    as (Hr & Hh & Hno);
    [repeat split; reflexivity | reflexivity | reflexivity | reflexivity |].
  split; [exact Hr|]. rewrite Hh, h_agent_split. exact Hno.
Defined.

(** ** The clearing step and the exceptions it lets through *)

Lemma bind_ext_at {A B} (m : M A) (k1 k2 : A → M B) (w : world) :
  (∀ a w1, m w = (Ret a, w1) → k1 a w1 = k2 a w1) → bind m k1 w = bind m k2 w.
Proof.
  intros H. unfold bind. destruct (m w) as [[a|e] w1]; [apply H|]; reflexivity.
Qed.

Lemma bind_ext_head {A B} (m1 m2 : M A) (k : A → M B) (w : world) :
  m1 w = m2 w → bind m1 k w = bind m2 k w.
Proof. unfold bind. now intros ->. Qed.

Lemma try_except_ext_head {A} (body1 body2 : M A) handles handler (w : world) :
  body1 w = body2 w →
  try_except body1 handles handler w = try_except body2 handles handler w.
Proof. unfold try_except. now intros ->. Qed.

Lemma with_settings_ext {A} change (body1 body2 : M A) (w : world) :
  body1 (set_fab (change (fab w)) w) = body2 (set_fab (change (fab w)) w) →
  Fabric.with_settings change body1 w = Fabric.with_settings change body2 w.
Proof. unfold Fabric.with_settings. now intros ->. Qed.

Section UncaughtClearing.
Variable E : environment.
Variable other : list event → option string.
Variable hypervisor : Hypervisor.
Variable vm : VM.

(** The request of the clearing step: to the controller when there is a
    token, the clean-up on the authority's host otherwise. *)
Definition clearing_request (w : world) (ca : string) : event :=
  match Py.truthy (environ w !! "PUPPET_CONTROLLER_TOKEN") with
  | Some token => clear_request vm ca token
  | None => ERun ca (cwd (fab w)) (Preparevm.cert_clean_command vm) true
  end.

Lemma uncaught_controller hostname puppet_master token w :
  let h := history w ++ [EUrlopen ("https://" +:+ puppet_master +:+ ":9000/")
                           (Some (Preparevm.clear_params hostname token)) None] in
  Uncaught._clear_cert_controller E other hostname puppet_master token w =
    match other h with
    | Some name => (Raise (OtherException name), set_history h w)
    | None => Preparevm._clear_cert_controller E hostname puppet_master token w
    end.
Proof.
  cbv zeta.
  unfold Uncaught._clear_cert_controller, Preparevm._clear_cert_controller,
    try_except, bind, Uncaught.urlopen, Preparevm.urlopen.
  change (Py.format "https://{}:9000/" [puppet_master])
    with ("https://" +:+ puppet_master +:+ ":9000/").
  destruct (other _); reflexivity.
Qed.


Lemma block_autostart_ret w u w1 :
  Preparevm.block_autostart E hypervisor vm w = (Ret u, w1) →
  blocked E hypervisor vm w ∧ w1 = set_history (h_block hypervisor vm w) w.
Proof.
  rewrite block_autostart_unfold. cbv zeta. unfold blocked, h_block, block_events.
  rewrite <- !app_assoc. cbn [app].
  destruct (returns E (history w ++ [_]) w); cbn [negb]; [|discriminate].
  destruct (returns E (history w ++ [_; _]) w); cbn [negb]; [|discriminate].
  destruct (returns E (history w ++ [_; _; _]) w); [|discriminate].
  intros [= <-]. auto.
Qed.

(** Where no exception of another class occurs in the clearing step,
    nothing differs. *)
Lemma uncaught_agrees clear_cert tx w :
  (∀ ca, server_obj w !! "puppet_ca" = Some ca →
         other (h_block hypervisor vm w ++ [clearing_request w ca]) = None) →
  Uncaught.run_puppet E other hypervisor vm clear_cert tx w
  = Preparevm.run_puppet E hypervisor vm clear_cert tx w.
Proof.
  intros Hnone. unfold Uncaught.run_puppet, Preparevm.run_puppet. cbv zeta.
  apply bind_ext_at. intros [] w1 Hb. apply block_autostart_ret in Hb as (_ & ->).
  apply bind_ext_head.
  destruct clear_cert; [|reflexivity].
  apply bind_ext_at. intros ca w2 Hg. unfold server_obj_get in Hg.
  destruct (server_obj _ !! "puppet_ca") as [ca0|] eqn:Hca; [|discriminate].
  injection Hg as -> <-.
  apply bind_ext_at. intros tok w3 He. unfold environ_get in He. injection He as <- <-.
  specialize (Hnone ca eq_refl). unfold clearing_request in Hnone.
  destruct w as [h f so tr en]. wsimpl_all.
  destruct (Py.truthy _) as [token|].
  - apply try_except_ext_head, bind_ext_head.
    rewrite uncaught_controller. cbv zeta. wsimpl.
    unfold clear_request in Hnone. rewrite Hnone. reflexivity.
  - apply with_settings_ext, bind_ext_head.
    unfold Uncaught.run. cbv zeta. wsimpl. rewrite Hnone. reflexivity.
Qed.

(** In particular, over an outside world without such exceptions this
    is the [run_puppet] of [Preparevm]. *)
Lemma uncaught_conservative clear_cert tx w :
  (∀ h, other h = None) →
  Uncaught.run_puppet E other hypervisor vm clear_cert tx w
  = Preparevm.run_puppet E hypervisor vm clear_cert tx w.
Proof. intros H. apply uncaught_agrees. intros ca _. apply H. Qed.


End UncaughtClearing.





(** ** Preparing the guest's root file system *)

(** Inversion of a computation that returned. *)
Lemma bind_ret_inv {A B} (m : M A) (k : A -> M B) w b w' :
  bind m k w = (Ret b, w') → ∃ a w1, m w = (Ret a, w1) ∧ k a w1 = (Ret b, w').
Proof.
  unfold bind. destruct (m w) as [[a|e] w1]; [eauto|discriminate].
Qed.

Lemma with_settings_inv {A} change (body : M A) w r w' :
  Fabric.with_settings change body w = (r, w') →
  ∃ w1, body (set_fab (change (fab w)) w) = (r, w1) ∧ w' = set_fab (fab w) w1.
Proof.
  unfold Fabric.with_settings. destruct (body _) as [r1 w1]. intros [= <- <-]. eauto.
Qed.

Section Primitives.
Variable E : environment.

Definition ev_run (w : world) (command : string) : event :=
  ERun (host_string (fab w)) (cwd (fab w)) command (warn_only (fab w)).

Lemma run_ret_inv command w s w' :
  Fabric.run E command false w = (Ret s, w') →
  w' = set_history (history w ++ [ev_run w command]) w.
Proof.
  unfold Fabric.run, ev_run. cbn [orb]. destruct (_ || _); [|discriminate].
  now intros [= _ <-].
Qed.

Lemma get_ret_inv path w s w' :
  Fabric.get E path w = (Ret s, w') →
  w' = set_history (history w ++ [EGet (host_string (fab w)) (cwd (fab w)) path]) w
  ∧ env_get E (history w') = Some s.
Proof.
  unfold Fabric.get. destruct (env_get E _) eqn:Hget; [|discriminate].
  intros [= <- <-]. auto.
Qed.

Lemma call_ret_inv what e w u w' :
  Fabric.call E what e w = (Ret u, w') →
  w' = set_history (history w ++ [e (fab w)]) w.
Proof.
  unfold Fabric.call. destruct (env_call E _); [|discriminate]. now intros [= _ <-].
Qed.

Lemma for_each_run_inv (command : string -> string) l w u w' :
  for_each l (fun x => bind (Preparevm.run E (command x) false) (fun _ => ret tt)) w = (Ret u, w') →
  w' = set_history (history w ++ map (fun x => ev_run w (command x)) l) w.
Proof.
  revert w. induction l as [|x l IH]; intros w H.
  - cbn in H. injection H as _ <-. cbn. rewrite app_nil_r. now destruct w.
  - cbn [for_each] in H. apply bind_ret_inv in H as (u1 & w1 & H1 & H2).
    apply bind_ret_inv in H1 as (s & w2 & H1 & H3).
    unfold ret in H3. injection H3 as _ Hw. subst w2.
    apply run_ret_inv in H1. apply IH in H2. subst w1 w'.
    destruct w. unfold ev_run. wsimpl. cbn [map]. rewrite <- app_assoc. reflexivity.
Qed.

End Primitives.

Lemma server_obj_get_inv key w v w' :
  server_obj_get key w = (Ret v, w') → w' = w ∧ server_obj w !! key = Some v.
Proof.
  unfold server_obj_get. destruct (server_obj w !! key); [|discriminate].
  now intros [= <- <-].
Qed.

Section PrepareVm.
Variable E : environment.
Variable settings : igvm_settings.
Variable hypervisor : Hypervisor.
Variable vm : VM.

(** A template uploaded under its own name into the guest root. *)
Definition upload (w : world) (template : string) (context : list (string * tvalue)) : event :=
  EUploadTemplate (hv_hostname hypervisor) (guest_root hypervisor vm w) template template context.

(** Host name, mail name and network configuration. *)
Definition identity_events (w : world) : list event :=
  [on_hv hypervisor vm w (Py.cmd "echo {0} > etc/hostname" [fqdn vm]);
   on_hv hypervisor vm w (Py.cmd "echo {0} > etc/mailname" [fqdn vm]);
   on_hv hypervisor vm w "mkdir -p etc/network";
   upload w "etc/network/interfaces" [("network_config", TDict (network_config vm))]].

(** Old host keys removed, new ones generated, the RSA public key read. *)
Definition key_events (w : world) (os : string) : list event :=
  on_hv hypervisor vm w "rm -f etc/ssh/ssh_host_*_key*"
    :: map (fun t => on_hv hypervisor vm w (Preparevm.ssh_keygen_command t))
         (Preparevm.key_types os)
    ++ [EGet (hv_hostname hypervisor) (guest_root hypervisor vm w) "etc/ssh/ssh_host_rsa_key.pub"].

(** File-system table, hosts, inittab, resolver, swap, authorized keys. *)
Definition system_events (w : world) : list event :=
  let swap_path := Py.path_join (vm_mount_path hypervisor vm) "swap" in
  [upload w "etc/fstab"
     [("blk_dev", TStr (vm_block_device_name hypervisor));
      ("type", TStr "xfs"); ("mount_options", TStr "defaults")];
   upload w "etc/hosts" [];
   upload w "etc/inittab" [];
   upload w "etc/resolv.conf" [("dns_servers", TList (DEFAULT_DNS_SERVERS settings))];
   on_hv hypervisor vm w
     (Py.cmd "dd if=/dev/zero of={0} bs=1M count={1}"
        [swap_path; pretty (DEFAULT_SWAP_SIZE settings)]);
   on_hv hypervisor vm w (Py.cmd "/sbin/mkswap {0}" [swap_path]);
   on_hv hypervisor vm w (Py.cmd "/bin/chmod 0600 {0}" [swap_path]);
   ECreateAuthorizedKeys (hv_hostname hypervisor) (guest_root hypervisor vm w)
     (vm_mount_path hypervisor vm)].

Ltac minv :=
  repeat match goal with
    | H : bind _ _ _ = (Ret _, _) |- _ => apply bind_ret_inv in H as (? & ? & ? & ?)
    | H : Preparevm.run _ _ false _ = (Ret _, _) |- _ => apply run_ret_inv in H
    | H : Fabric.run _ _ false _ = (Ret _, _) |- _ => apply run_ret_inv in H
    | H : Fabric.call _ _ _ _ = (Ret _, _) |- _ => apply call_ret_inv in H
    | H : Fabric.get _ _ _ = (Ret _, _) |- _ => apply get_ret_inv in H as [? ?]
    | H : for_each _ _ _ = (Ret _, _) |- _ => apply for_each_run_inv in H
    | H : server_obj_get _ _ = (Ret _, _) |- _ => apply server_obj_get_inv in H as [? ?]
    | H : ret _ _ = (Ret _, _) |- _ => unfold ret in H; injection H as ? ?
    | H : server_obj_set _ _ _ = (Ret _, _) |- _ =>
        unfold server_obj_set in H; injection H as ? ?
    end.

(** The worlds met along the way are made explicit one after the other,
    oldest first, so that no term is copied into the next. *)
Ltac wnorm H :=
  cbv [ev_run set_history set_fab set_server_obj set_transaction
       history fab server_obj transaction environ] in H.

Ltac wsubst :=
  repeat match goal with
    | H : ?x = _ |- _ =>
        is_var x; wnorm H;
        lazymatch type of H with (_ = World _ _ _ _ _) => subst x end
    | H : _ = ?x |- _ =>
        is_var x; wnorm H;
        lazymatch type of H with (World _ _ _ _ _ = _) => subst x end
    end.

Lemma prepare_vm_inv w w' :
  Preparevm.prepare_vm E settings hypervisor vm w = (Ret tt, w') →
  ∃ os pub key rest,
    server_obj w !! "os" = Some os
    ∧ env_get E (history w ++ identity_events w ++ key_events w os) = Some pub
    ∧ Py.split pub = "ssh-rsa" :: key :: rest
    ∧ w' = World (history w ++ identity_events w ++ key_events w os ++ system_events w)
             (fab w) (<["ssh_pubkey" := key]> (server_obj w)) (transaction w) (environ w).
Proof.
  unfold Preparevm.prepare_vm, Preparevm.hv_fabric_settings.
  destruct w as [h f so tr en].
  intros H. apply with_settings_inv in H as (w1 & H & ->).
  wsimpl_in H.
  unfold Preparevm._create_interfaces, Preparevm._create_ssh_keys,
    Preparevm._get_ssh_public_key, Preparevm._generate_swap,
    Preparevm.upload_template, Preparevm.create_authorized_keys in H.
  minv. wsubst. wsimpl_all.
  match goal with
  | H : context [Py.split ?c] |- _ =>
      destruct (Py.split c) as [|first [|key rest]] eqn:Hsplit;
      [discriminate H | |];
      (destruct (String.eqb_spec first ("ssh-" +:+ "rsa")) as [->|]; [|discriminate H]);
      [discriminate H|]
  end.
  change ("ssh-" +:+ "rsa") with "ssh-rsa" in Hsplit.
  minv. wsubst. subst. wsimpl_all.
  eexists _, _, _, _. split; [eassumption|].
  split; [|split; [eassumption|]].
  - match goal with H : env_get E _ = Some _ |- _ => rewrite <- H end.
    f_equal. unfold identity_events, key_events, on_hv, upload, guest_root.
    wsimpl. repeat rewrite <- app_assoc. cbn [app]. repeat rewrite <- app_assoc.
    reflexivity.
  - unfold identity_events, key_events, system_events, on_hv, upload, guest_root.
    cbv [set_fab set_history history fab server_obj transaction environ].
    f_equal. repeat rewrite <- app_assoc. cbn [app]. repeat rewrite <- app_assoc.
    reflexivity.
Qed.

End PrepareVm.

(** C7. A call of [prepare_vm] that returns has, on the hypervisor and
    in the guest root: written the FQDN to etc/hostname and
    etc/mailname; uploaded the interfaces file; removed
    etc/ssh/ssh_host_*_key* and only then generated one host key per key
    type (RSA among them); read etc/ssh/ssh_host_rsa_key.pub and stored
    its second word under ssh_pubkey in the VM's inventory record;
    uploaded an fstab whose block device is the one the hypervisor
    names, and the resolver configuration; made the swap file and
    installed the authorized keys. *)
Theorem prepare_vm_spec (E : environment) (settings : igvm_settings)
    (hypervisor : Hypervisor) (vm : VM) (w w' : world) :
  Preparevm.prepare_vm E settings hypervisor vm w = (Ret tt, w') →
  let hv_run := on_hv hypervisor vm w in
  ∃ os pub key rest,
    server_obj w !! "os" = Some os
    ∧ history w' =
        history w ++ identity_events hypervisor vm w ++ key_events hypervisor vm w os
          ++ system_events settings hypervisor vm w
    ∧ identity_events hypervisor vm w =
        [hv_run ("echo " +:+ Py.quote (fqdn vm) +:+ " > etc/hostname");
         hv_run ("echo " +:+ Py.quote (fqdn vm) +:+ " > etc/mailname");
         hv_run "mkdir -p etc/network";
         upload hypervisor vm w "etc/network/interfaces"
           [("network_config", TDict (network_config vm))]]
    ∧ key_events hypervisor vm w os =
        hv_run "rm -f etc/ssh/ssh_host_*_key*"
          :: map (fun t => hv_run ("chroot . ssh-keygen -q -t " +:+ t +:+ " -N "
                                     +:+ Py.dq +:+ Py.dq
                                     +:+ " -f etc/ssh/ssh_host_" +:+ t +:+ "_key"))
               (Preparevm.key_types os)
          ++ [EGet (hv_hostname hypervisor) (guest_root hypervisor vm w)
                "etc/ssh/ssh_host_rsa_key.pub"]
    ∧ In "rsa" (Preparevm.key_types os)
    ∧ env_get E (history w ++ identity_events hypervisor vm w ++ key_events hypervisor vm w os)
        = Some pub
    ∧ Py.split pub = "ssh-rsa" :: key :: rest
    ∧ server_obj w' = <["ssh_pubkey" := key]> (server_obj w)
    ∧ In (upload hypervisor vm w "etc/fstab"
            [("blk_dev", TStr (vm_block_device_name hypervisor));
             ("type", TStr "xfs"); ("mount_options", TStr "defaults")])
         (system_events settings hypervisor vm w)
    ∧ In (upload hypervisor vm w "etc/resolv.conf"
            [("dns_servers", TList (DEFAULT_DNS_SERVERS settings))])
         (system_events settings hypervisor vm w).
Proof.
  intros H. cbv zeta.
  apply prepare_vm_inv in H as (os & pub & key & rest & Hos & Hget & Hsplit & ->).
  exists os, pub, key, rest. wsimpl.
  split; [assumption|]. split; [reflexivity|]. split.
  { unfold identity_events. repeat f_equal; cmd_eq. }
  split.
  { unfold key_events.
    apply (f_equal (cons (on_hv hypervisor vm w "rm -f etc/ssh/ssh_host_*_key*"))).
    apply (f_equal (fun l => l ++ [EGet (hv_hostname hypervisor) (guest_root hypervisor vm w)
                                     "etc/ssh/ssh_host_rsa_key.pub"])).
    apply map_ext. intros t. apply (f_equal (on_hv hypervisor vm w)).
    unfold Preparevm.ssh_keygen_command. cmd_eq. }
  split.
  { unfold Preparevm.key_types. destruct (String.eqb os "wheezy"); cbn; auto. }
  split; [assumption|]. split; [assumption|]. split; [reflexivity|].
  unfold system_events. cbn [In]. auto 6.
Qed.

(** On the fixture where everything succeeds, the key of the record is
    the one read from the guest. *)
Lemma prepare_vm_spec_witness :
  let S := Settings ["10.0.0.1"; "10.0.0.2"] 1024 in
  let out := Preparevm.prepare_vm Fixtures.all_fine S Fixtures.hv1 Fixtures.vm1 Fixtures.w0 in
  out.1 = Ret tt ∧ server_obj out.2 !! "ssh_pubkey" = Some "AAAAB3Nza".
Proof.
  cbv zeta. split; [vm_compute; reflexivity|].
  assert (Hrun : Preparevm.prepare_vm Fixtures.all_fine
                   (Settings ["10.0.0.1"; "10.0.0.2"] 1024)
                   Fixtures.hv1 Fixtures.vm1 Fixtures.w0
                 = (Ret tt,
                    (Preparevm.prepare_vm Fixtures.all_fine
                       (Settings ["10.0.0.1"; "10.0.0.2"] 1024)
                       Fixtures.hv1 Fixtures.vm1 Fixtures.w0).2))
    by (vm_compute; reflexivity).
  destruct (prepare_vm_spec Fixtures.all_fine (Settings ["10.0.0.1"; "10.0.0.2"] 1024)
              Fixtures.hv1 Fixtures.vm1 Fixtures.w0 _ Hrun)
    as (os & pub & key & rest & _ & _ & _ & _ & _ & Hget & Hsplit & Hso & _).
  rewrite Hso. injection Hget as <-. vm_compute in Hsplit. injection Hsplit as <- _.
  apply lookup_insert_eq.
Defined.

(** ** Where the DNS servers and the swap size come from *)

(** The reading of C8: what the prepare step writes as DNS servers and
    as swap size is what its caller passes to it, so that for every
    wanted configuration there is a call that applies it.  The module
    constants [settings] stay what they are. *)
Definition configured_by_caller (E : environment) (settings : igvm_settings) : Prop :=
  ∀ (dns : list string) (swap : N),
  ∃ hypervisor vm w w' new,
    Preparevm.prepare_vm E settings hypervisor vm w = (Ret tt, w')
    ∧ history w' = history w ++ new
    ∧ In (upload hypervisor vm w "etc/resolv.conf" [("dns_servers", TList dns)]) new
    ∧ In (on_hv hypervisor vm w
            (Py.cmd "dd if=/dev/zero of={0} bs=1M count={1}"
               [Py.path_join (vm_mount_path hypervisor vm) "swap"; pretty swap])) new.

Lemma resolv_conf_upload settings hypervisor vm w os host dir template context :
  In (EUploadTemplate host dir template "etc/resolv.conf" context)
     (identity_events hypervisor vm w ++ key_events hypervisor vm w os
        ++ system_events settings hypervisor vm w) →
  context = [("dns_servers", TList (DEFAULT_DNS_SERVERS settings))].
Proof.
  unfold identity_events, key_events, system_events, upload, on_hv.
  rewrite !in_app_iff. cbn [In]. rewrite in_app_iff, in_map_iff. cbn [In].
  intros H.
  repeat match goal with
         | H : _ ∨ _ |- _ => destruct H as [H|H]
         | H : ∃ _, _ |- _ => destruct H as [? [H _]]
         | H : False |- _ => destruct H
         end; try discriminate H.
  now injection H as _ _ _ <-.
Qed.

(** The reading of C8 fails: with 10.0.0.1 as module default, no call of
    [prepare_vm] writes 8.8.8.8 into the resolver configuration. *)
Lemma prepare_vm_not_configured_by_caller :
  ¬ configured_by_caller Fixtures.all_fine (Settings ["10.0.0.1"] 1024).
Proof.
  intros H.
  destruct (H ["8.8.8.8"] 2048%N) as (hv & vm & w & w' & new & Hrun & Hh & Hdns & _).
  apply prepare_vm_inv in Hrun as (os & pub & key & rest & _ & _ & _ & ->).
  cbn [history] in Hh. apply app_inv_head in Hh. subst new.
  apply resolv_conf_upload in Hdns. discriminate Hdns.
Qed.

(** C8, amended. [prepare_vm] is called with a hypervisor and a VM and
    nothing else.  A call that returns has uploaded etc/resolv.conf once,
    with the module constant DEFAULT_DNS_SERVERS as DNS servers, and has
    made the swap file with the module constant DEFAULT_SWAP_SIZE as
    size, whatever the hypervisor and the VM. *)
Theorem prepare_vm_reads_module_defaults (E : environment) (settings : igvm_settings)
    (hypervisor : Hypervisor) (vm : VM) (w w' : world) :
  Preparevm.prepare_vm E settings hypervisor vm w = (Ret tt, w') →
  ∃ new,
    history w' = history w ++ new
    ∧ In (upload hypervisor vm w "etc/resolv.conf"
            [("dns_servers", TList (DEFAULT_DNS_SERVERS settings))]) new
    ∧ (∀ host dir template context,
         In (EUploadTemplate host dir template "etc/resolv.conf" context) new →
         context = [("dns_servers", TList (DEFAULT_DNS_SERVERS settings))])
    ∧ In (on_hv hypervisor vm w
            ("dd if=/dev/zero of="
               +:+ Py.quote (Py.path_join (vm_mount_path hypervisor vm) "swap")
               +:+ " bs=1M count=" +:+ Py.quote (pretty (DEFAULT_SWAP_SIZE settings)))) new.
Proof.
  intros Hrun.
  apply prepare_vm_inv in Hrun as (os & pub & key & rest & _ & _ & _ & ->).
  eexists. split; [reflexivity|]. split; [|split].
  - rewrite !in_app_iff. right. right. unfold system_events. cbn [In]. auto 6.
  - intros host dir template context. apply resolv_conf_upload.
  - rewrite !in_app_iff. right. right. unfold system_events. cbn [In].
    do 4 right. left. f_equal. cmd_eq.
Qed.

Lemma prepare_vm_reads_module_defaults_witness :
  let S := Settings ["10.0.0.1"; "10.0.0.2"] 1024 in
  let out := Preparevm.prepare_vm Fixtures.all_fine S Fixtures.hv1 Fixtures.vm1 Fixtures.w0 in
  In (EUploadTemplate "hv1.test.ig.local" "/mnt/vm1" "etc/resolv.conf" "etc/resolv.conf"
        [("dns_servers", TList ["10.0.0.1"; "10.0.0.2"])]) (history out.2)
  ∧ In (ERun "hv1.test.ig.local" "/mnt/vm1"
          "dd if=/dev/zero of=/mnt/vm1/swap bs=1M count=1024" false) (history out.2).
Proof.
  cbv zeta.
  assert (Hrun : Preparevm.prepare_vm Fixtures.all_fine
                   (Settings ["10.0.0.1"; "10.0.0.2"] 1024)
                   Fixtures.hv1 Fixtures.vm1 Fixtures.w0
                 = (Ret tt,
                    (Preparevm.prepare_vm Fixtures.all_fine
                       (Settings ["10.0.0.1"; "10.0.0.2"] 1024)
                       Fixtures.hv1 Fixtures.vm1 Fixtures.w0).2))
    by (vm_compute; reflexivity).
  destruct (prepare_vm_reads_module_defaults Fixtures.all_fine
              (Settings ["10.0.0.1"; "10.0.0.2"] 1024) Fixtures.hv1 Fixtures.vm1 Fixtures.w0
              _ Hrun)
    as (new & Hh & Hdns & _ & Hswap).
  rewrite Hh. split; apply in_or_app; right; [exact Hdns|].
  vm_compute in Hswap. vm_compute. exact Hswap.
Defined.

(** ** The image index *)

(** [get_images] makes one request; a URL error gives [None], a page
    gives what the regular expression finds in it. *)
Lemma get_images_unfold (E : environment) (w : world) :
  let h := history w ++ [EUrlopen "http://files.innogames.de/" None (Some 2%nat)] in
  Image_packet.get_images E w =
    (match env_urlopen E h with
     | HttpURLError _ => Ret None
     | HttpSocketError msg => Raise (SocketError msg)
     | HttpResponse _ page => Ret (Some (Re.findall page))
     end, set_history h w).
Proof.
  cbv zeta. unfold Image_packet.get_images.
  change Image_packet.BASE_URL with "http://files.innogames.de/".
  destruct (env_urlopen E _); reflexivity.
Qed.

(** C10, the part that holds: a URL error gives [None], without an
    exception. *)
Lemma get_images_url_error (E : environment) (w : world) (msg : string) :
  env_urlopen E (history w ++ [EUrlopen "http://files.innogames.de/" None (Some 2%nat)])
    = HttpURLError msg →
  (Image_packet.get_images E w).1 = Ret None.
Proof. intros H. rewrite get_images_unfold. cbv zeta. rewrite H. reflexivity. Qed.

(** C10, the divergence: on a page with two links on one line, the
    first of which is no archive, [get_images] returns one string that
    runs from the first target to the end of the second - not a
    hyperlink target - where the targets ending in .tar.gz are just
    y.tar.gz. *)
Theorem get_images_spans_links :
  (Image_packet.get_images (Fixtures.serves Fixtures.two_links_page) Fixtures.w0).1
    = Ret (Some ["x.txt" +:+ Py.dq +:+ ">x</a> <a href=" +:+ Py.dq +:+ "y.tar.gz"])
  ∧ Links.tar_gz_targets Fixtures.two_links_page = ["y.tar.gz"].
Proof. split; reflexivity. Qed.


(** * Further properties of the code *)

(** ** What [run_puppet] leaves alone *)

Section RunPuppetEffects.
Variable E : environment.
Variable hypervisor : Hypervisor.
Variable vm : VM.

(** Case analysis over the paths of [run_puppet]. *)
Ltac paths w :=
  rewrite (run_puppet_unfold E hypervisor vm); unfold run_puppet_paths; cbv zeta;
  repeat match goal with
         | |- context [negb (returns E ?h w)] => destruct (returns E h w) eqn:?; cbn [negb]
         | |- context [if returns E ?h w then _ else _] => destruct (returns E h w) eqn:?
         | |- context [match server_obj w !! ?k with _ => _ end] =>
             destruct (server_obj w !! k) eqn:?
         | |- context [if ?b then _ else _] => is_var b; destruct b
         end;
  wsimpl.

(** X2. [run_puppet] never changes the inventory record, the process
    environment or Fabric's environment - host, directory and warn-only
    mode are those of before the call on every path, the raising ones
    included - it only adds to the history, and it leaves the
    transaction as it was or with the kill compensation on top; without
    a transaction argument it registers nothing. *)
Theorem run_puppet_frame (clear_cert : bool) (tx : option transaction_ref) (w : world) :
  let out := Preparevm.run_puppet E hypervisor vm clear_cert tx w in
  fab out.2 = fab w
  ∧ server_obj out.2 = server_obj w
  ∧ environ out.2 = environ w
  ∧ (∃ new, history out.2 = history w ++ new)
  ∧ (transaction out.2 = transaction w
     ∨ (tx = Some CurrentTransaction
        ∧ transaction out.2 = kill_puppet hypervisor vm :: transaction w)).
Proof.
  cbv zeta. paths w.
  all: repeat split; try reflexivity.
  all: try (repeat rewrite <- app_assoc; eexists; reflexivity).
  all: try (left; reflexivity).
  all: destruct tx as [[]|]; cbn [registered]; auto.
Qed.

(** A request [run_puppet] may make: a command on the hypervisor in the
    guest root, the registration of the kill compensation, or - only
    with [clear_cert] and an authority named in the inventory record -
    an event of the certificate-clearing step. *)
Definition allowed (clear_cert : bool) (w : world) (e : event) : Prop :=
  (∃ command, e = on_hv hypervisor vm w command)
  ∨ e = EOnRollback (kill_puppet hypervisor vm)
  ∨ (clear_cert = true
     ∧ ∃ ca, server_obj w !! "puppet_ca" = Some ca
             ∧ In e (clear_events E vm w (h_block hypervisor vm w) ca)).

Lemma allowed_on_hv clear_cert w command :
  allowed clear_cert w (on_hv hypervisor vm w command).
Proof. left. eauto. Qed.

Lemma allowed_register clear_cert tx w :
  Forall (allowed clear_cert w) (register_events hypervisor vm tx).
Proof.
  destruct tx; [|apply List.Forall_nil].
  apply List.Forall_cons; [right; left; reflexivity | apply List.Forall_nil].
Qed.

Lemma allowed_clear w ca :
  server_obj w !! "puppet_ca" = Some ca →
  Forall (allowed true w) (clear_events E vm w (h_block hypervisor vm w) ca).
Proof.
  intros Hca. apply List.Forall_forall. intros e He. right. right.
  split; [reflexivity|]. exists ca. split; assumption.
Qed.

(** X3. Everything [run_puppet] requests is a command on the hypervisor
    in the guest root, the registration of the kill compensation or,
    with [clear_cert], part of the clearing step.  Without [clear_cert]
    it contacts neither the controller nor the certificate authority
    and logs nothing. *)
Theorem run_puppet_requests (clear_cert : bool) (tx : option transaction_ref) (w : world) :
  let out := Preparevm.run_puppet E hypervisor vm clear_cert tx w in
  ∃ new,
    history out.2 = history w ++ new
    ∧ Forall (allowed clear_cert w) new
    ∧ (clear_cert = false →
         Forall (fun e => match e with
                          | ERun host _ _ _ => host = hv_hostname hypervisor
                          | EOnRollback _ => True
                          | _ => False
                          end) new).
Proof.
  cbv zeta.
  assert (Hb3 : ((history w ++ [on_hv hypervisor vm w Preparevm.block_line_1])
                   ++ [on_hv hypervisor vm w Preparevm.block_line_2])
                  ++ [on_hv hypervisor vm w chmod_command]
                = h_block hypervisor vm w).
  { unfold h_block, block_events. rewrite <- !app_assoc. reflexivity. }
  paths w.
  all: try rewrite Hb3.
  all: unfold h_block, block_events.
  all: repeat rewrite <- app_assoc; cbn [app].
  all: eexists; split; [reflexivity|].
  all: split;
    [ repeat first
        [ apply List.Forall_nil
        | apply List.Forall_cons; [apply allowed_on_hv|]
        | apply Forall_app; split
        | apply allowed_register
        | apply allowed_clear; assumption ]
    | intros Hcc; try discriminate Hcc;
      repeat first
        [ apply List.Forall_nil
        | apply List.Forall_cons; [reflexivity|]
        | apply Forall_app; split
        | destruct tx; repeat constructor ] ].
Qed.

(** X4. When the inventory record names no puppet master, [run_puppet]
    called without [clear_cert] raises [KeyError] after it has blocked
    auto-start and registered the kill compensation: the agent is not
    run, yet the compensation is on the transaction and the block is
    left in the guest. *)
Theorem run_puppet_missing_master (tx : option transaction_ref) (w : world) :
  blocked E hypervisor vm w →
  server_obj w !! "puppet_master" = None →
  Preparevm.run_puppet E hypervisor vm false tx w =
    (Raise (KeyError "puppet_master"),
     World (history w ++ block_events hypervisor vm w ++ register_events hypervisor vm tx)
       (fab w) (server_obj w) (registered hypervisor vm tx (transaction w)) (environ w)).
Proof.
  intros (B1 & B2 & B3) Hpm.
  rewrite (run_puppet_unfold E hypervisor vm). unfold run_puppet_paths. cbv zeta.
  unfold h_block, block_events in *.
  repeat rewrite <- app_assoc. cbn [app].
  rewrite B1, B2, B3, Hpm. reflexivity.
Qed.

End RunPuppetEffects.

Lemma run_puppet_missing_master_witness :
  let w := World [] Fixtures.fab0 (<["puppet_ca" := "ca.ig.local"]> ∅) [] ∅ in
  let out := Preparevm.run_puppet Fixtures.all_fine Fixtures.hv1 Fixtures.vm1 false
               (Some CurrentTransaction) w in
  out.1 = Raise (KeyError "puppet_master")
  ∧ transaction out.2 = [kill_puppet Fixtures.hv1 Fixtures.vm1]
  ∧ length (history out.2) = 4%nat.
Proof.
  cbv zeta.
  rewrite (run_puppet_missing_master Fixtures.all_fine Fixtures.hv1 Fixtures.vm1
             (Some CurrentTransaction)
             (World [] Fixtures.fab0 (<["puppet_ca" := "ca.ig.local"]> ∅) [] ∅)).
  - repeat split.
  - repeat split; vm_compute; reflexivity.
  - vm_compute. reflexivity.
Defined.

(** ** Failures around the checksum comparison of [download_image] *)

(** The packet server reports another checksum and the download fails. *)
Definition refetch_fails : environment :=
  Environment
    (fun h =>
       if String.eqb (Fixtures.last_host h) Image_packet.PACKET_SERVER
       then RunResult "9e107d9d372bb6826bd81d3542a419d6  jessie.tar.gz" 0
       else if String.prefix "wget" (Fixtures.last_command h)
            then RunResult "" 4
            else RunResult "0f343b0931126a20f133d67c2b018a3b  jessie.tar.gz" 0)
    (env_get Fixtures.all_fine) (env_call Fixtures.all_fine)
    (env_exists Fixtures.all_fine) (env_urlopen Fixtures.all_fine).

(** No command succeeds. *)
Definition nothing_works : environment :=
  Environment (fun _ => RunResult "" 1)
    (fun _ => None) (fun _ => false) (fun _ => true)
    (fun _ => HttpURLError "unreachable").

(** X5. After a checksum mismatch [download_image] returns normally
    whatever becomes of the deletion and of the download: when [rm -f]
    fails nothing is fetched, and when the download fails after the stale
    file was deleted the caller is not told either. *)
Theorem download_image_hides_failed_refetch (E : environment) (image local_hash remote_hash : string)
    (w : world) :
  let out := Image_packet.download_image E image w in
  let h0 := history w ++ [ev_exists w image] in
  let h1 := h0 ++ [ev_local w (md5sum_command image)] in
  let h2 := h1 ++ [ev_packet_server w (md5sum_command image)] in
  let h3 := h2 ++ [ev_local w (rm_command image)] in
  env_exists E h0 = true →
  returns E h1 w = true → printed_word E h1 = Some local_hash →
  returns E h2 w = true → printed_word E h2 = Some remote_hash →
  local_hash ≠ remote_hash →
  out.1 = Ret tt
  ∧ history out.2 =
      (if returns E h3 w then h3 ++ [ev_local w (wget_command image)] else h3).
Proof.
  cbv zeta. intros Hex Hr1 Hw1 Hr2 Hw2 Hne.
  rewrite download_image_unfold. unfold download_image_paths.
  rewrite Hex, Hr1, Hw1, Hr2, Hw2.
  apply String.eqb_neq in Hne. rewrite Hne. clear Hr1 Hr2.
  match goal with
  | |- context [if returns E ?h w then _ else _] => destruct (returns E h w)
  end; split; reflexivity.
Qed.

Lemma download_image_hides_failed_refetch_witness :
  let out := Image_packet.download_image refetch_fails "jessie.tar.gz" Fixtures.w0 in
  out.1 = Ret tt
  ∧ last (history out.2)
    = Some (ERun "localhost" "" "wget -nv http://files.innogames.de/jessie.tar.gz" false)
  ∧ return_code (env_run refetch_fails (history out.2)) = 4%Z.
Proof.
  cbv zeta.
  destruct (download_image_hides_failed_refetch refetch_fails "jessie.tar.gz"
              "0f343b0931126a20f133d67c2b018a3b" "9e107d9d372bb6826bd81d3542a419d6"
              Fixtures.w0) as [Hr Hh];
    [vm_compute; reflexivity.. | discriminate |].
  split; [exact Hr|]. rewrite Hh. split; vm_compute; reflexivity.
Defined.

(** X6. Outside the [try] block nothing is caught: when the archive is
    absent and the download fails, and when the local [md5sum] fails or
    prints nothing, [download_image] raises ([RemoteCommandError],
    [IndexError]); in the last two cases the packet server is not
    asked. *)
Theorem download_image_raises (E : environment) (image : string) (w : world) :
  let out := Image_packet.download_image E image w in
  let h0 := history w ++ [ev_exists w image] in
  let h1 := h0 ++ [ev_local w (md5sum_command image)] in
  let fetched := h0 ++ [ev_local w (wget_command image)] in
  (env_exists E h0 = false → returns E fetched w = false →
     out = (Raise (RemoteCommandError (wget_command image)), set_history fetched w))
  ∧ (env_exists E h0 = true → returns E h1 w = false →
     out = (Raise (RemoteCommandError (md5sum_command image)), set_history h1 w))
  ∧ (env_exists E h0 = true → returns E h1 w = true → printed_word E h1 = None →
     out = (Raise IndexError, set_history h1 w)).
Proof.
  cbv zeta. rewrite download_image_unfold. unfold download_image_paths.
  repeat split.
  - intros -> ->. reflexivity.
  - intros -> ->. reflexivity.
  - intros -> -> ->. reflexivity.
Qed.

Lemma download_image_raises_witness :
  (Image_packet.download_image nothing_works "jessie.tar.gz" Fixtures.w0).1
  = Raise (RemoteCommandError "md5sum jessie.tar.gz").
Proof.
  destruct (download_image_raises nothing_works "jessie.tar.gz" Fixtures.w0) as (_ & H & _).
  rewrite H; [reflexivity | vm_compute; reflexivity | vm_compute; reflexivity].
Defined.

(** ** What the image index yields *)

Lemma append_cons (c : ascii) (s t : string) : String c s +:+ t = String c (s +:+ t).
Proof. reflexivity. Qed.

Lemma append_assoc (a b c : string) : (a +:+ b) +:+ c = a +:+ (b +:+ c).
Proof.
  induction a as [|x a IH]; [reflexivity|].
  rewrite !append_cons, IH. reflexivity.
Qed.

Lemma prefix_split (p s : string) :
  String.prefix p s = true → s = p +:+ Re.skip (String.length p) s.
Proof.
  revert s. induction p as [|a p IH]; intros s H; [reflexivity|].
  destruct s as [|b s]; [discriminate|].
  cbn in H. destruct (Ascii.ascii_dec a b) as [->|]; [|discriminate].
  cbn [String.length Re.skip]. rewrite append_cons. f_equal. auto.
Qed.

(** Only blanks, and at least one. *)
Fixpoint all_blank (s : string) : bool :=
  match s with
  | EmptyString => true
  | String c r => Py.is_space c && all_blank r
  end.

(** No newline in the string. *)
Definition one_line (s : string) : Prop := ¬ In Re.newline (list_ascii_of_string s).

Lemma blanks_split (s : string) :
  ∃ ws, s = ws +:+ Re.skip (Re.blanks s) s
        ∧ all_blank ws = true ∧ String.length ws = Re.blanks s.
Proof.
  induction s as [|c s (ws & Hs & Hb & Hl)].
  - exists EmptyString. auto.
  - cbn [Re.blanks]. destruct (Py.is_space c) eqn:Hc.
    + exists (String c ws). cbn [Re.skip all_blank String.length].
      rewrite append_cons, <- Hs, Hc, Hb, Hl. auto.
    + exists EmptyString. auto.
Qed.

Lemma lazy_target_spec (s acc g : string) :
  Re.lazy_target acc s = Some g →
  ∃ mid rest, g = acc +:+ mid +:+ ".tar.gz"
              ∧ s = mid +:+ Re.closing +:+ rest ∧ one_line mid.
Proof.
  revert acc. induction s as [|c s IH]; intros acc H.
  - cbn in H. discriminate.
  - unfold Re.lazy_target in H. fold Re.lazy_target in H.
    destruct (String.prefix Re.closing (String c s)) eqn:Hp.
    + injection H as <-. exists EmptyString, (Re.skip (String.length Re.closing) (String c s)).
      split; [reflexivity|]. split; [|intros []].
      apply (prefix_split Re.closing). exact Hp.
    + destruct (Ascii.eqb_spec c Re.newline) as [|Hc]; [discriminate|].
      apply IH in H as (mid & rest & -> & -> & Hmid).
      exists (String c mid), rest. split; [|split].
      * rewrite append_assoc. reflexivity.
      * reflexivity.
      * intros [Hin|Hin]; [congruence|]. exact (Hmid Hin).
Qed.

Lemma match_here_spec (s g : string) (n : nat) :
  Re.match_here s = Some (g, n) →
  ∃ ws c stem rest,
    s = "<a" +:+ ws +:+ ("href=" +:+ Py.dq) +:+ g +:+ Py.dq +:+ rest
    ∧ all_blank ws = true ∧ ws ≠ EmptyString
    ∧ g = String c stem +:+ ".tar.gz" ∧ one_line (String c stem).
Proof.
  unfold Re.match_here. intros H.
  destruct (String.prefix "<a" s) eqn:Ha; [|discriminate].
  apply prefix_split in Ha. cbn [String.length] in Ha.
  destruct (blanks_split (Re.skip 2 s)) as (ws & Hws & Hb & Hl).
  destruct (Nat.ltb_spec 0 (Re.blanks (Re.skip 2 s))) as [Hk|]; [|discriminate].
  destruct (String.prefix ("href=" +:+ Py.dq) (Re.skip (Re.blanks (Re.skip 2 s)) (Re.skip 2 s)))
    eqn:Hh; [|discriminate].
  apply prefix_split in Hh. change (String.length ("href=" +:+ Py.dq)) with 6%nat in Hh.
  destruct (Re.skip 6 _) as [|c r] eqn:Hr; [discriminate|].
  destruct (Ascii.eqb_spec c Re.newline) as [|Hc]; [discriminate|].
  destruct (Re.lazy_target (String c EmptyString) r) as [g'|] eqn:Hl'; [|discriminate].
  injection H as <- _.
  apply lazy_target_spec in Hl' as (mid & rest & -> & -> & Hmid).
  exists ws, c, mid, rest. split; [|split; [exact Hb|split; [|split]]].
  - rewrite Ha at 1. rewrite Hws at 1. rewrite Hh at 1.
    unfold Re.closing. rewrite !append_assoc. reflexivity.
  - intros ->. rewrite <- Hl in Hk. exact (Nat.lt_irrefl 0 Hk).
  - reflexivity.
  - intros [Hin|Hin]; [congruence|]. exact (Hmid Hin).
Qed.

Lemma findall_from_spec (s g : string) (j : nat) :
  In g (Re.findall_from j s) →
  ∃ before here n, s = before +:+ here ∧ Re.match_here here = Some (g, n).
Proof.
  revert j. induction s as [|c s IH]; intros j H; [destruct H|].
  cbn [Re.findall_from] in H.
  assert (Hrest : ∀ k, In g (Re.findall_from k s) →
            ∃ before here n, String c s = before +:+ here ∧ Re.match_here here = Some (g, n)).
  { intros k Hk. apply IH in Hk as (before & here & n & -> & Hm).
    exists (String c before), here, n. auto. }
  destruct j as [|j]; [|eauto].
  destruct (Re.match_here (String c s)) as [[g' len]|] eqn:Hm; [|eauto].
  destruct H as [<-|H]; [|eauto].
  exists EmptyString, (String c s), len. auto.
Qed.

(** X7. Every name [get_images] returns stands in the fetched page
    between [<a], blanks, [href=], a double quote and the next
    [.tar.gz] followed by a double quote; it ends in [.tar.gz] after at
    least one other character and contains no newline. *)
Theorem get_images_sound (E : environment) (w : world) (names : list string) (g : string) :
  (Image_packet.get_images E w).1 = Ret (Some names) →
  In g names →
  ∃ code page before ws c stem rest,
    env_urlopen E (history w ++ [EUrlopen "http://files.innogames.de/" None (Some 2%nat)])
      = HttpResponse code page
    ∧ page = before +:+ "<a" +:+ ws +:+ ("href=" +:+ Py.dq) +:+ g +:+ Py.dq +:+ rest
    ∧ all_blank ws = true ∧ ws ≠ EmptyString
    ∧ g = String c stem +:+ ".tar.gz" ∧ one_line (String c stem).
Proof.
  rewrite get_images_unfold. cbv zeta. cbn [fst].
  destruct (env_urlopen E _) as [code page|msg|msg]; [|discriminate..].
  intros [= <-] Hin.
  apply findall_from_spec in Hin as (before & here & n & -> & Hm).
  apply match_here_spec in Hm as (ws & c & stem & rest & -> & Hb & Hne & Hg & Hl).
  exists code, (before +:+ "<a" +:+ ws +:+ ("href=" +:+ Py.dq) +:+ g +:+ Py.dq +:+ rest),
    before, ws, c, stem, rest.
  repeat split; auto.
Qed.

Lemma get_images_sound_witness :
  ∃ code page before ws c stem rest,
    env_urlopen (Fixtures.serves Fixtures.two_links_page)
      (history Fixtures.w0 ++ [EUrlopen "http://files.innogames.de/" None (Some 2%nat)])
      = HttpResponse code page
    ∧ page = before +:+ "<a" +:+ ws +:+ ("href=" +:+ Py.dq)
               +:+ ("x.txt" +:+ Py.dq +:+ ">x</a> <a href=" +:+ Py.dq +:+ "y.tar.gz")
               +:+ Py.dq +:+ rest
    ∧ all_blank ws = true ∧ ws ≠ EmptyString
    ∧ "x.txt" +:+ Py.dq +:+ ">x</a> <a href=" +:+ Py.dq +:+ "y.tar.gz"
      = String c stem +:+ ".tar.gz"
    ∧ one_line (String c stem).
Proof.
  apply (get_images_sound (Fixtures.serves Fixtures.two_links_page) Fixtures.w0
           ["x.txt" +:+ Py.dq +:+ ">x</a> <a href=" +:+ Py.dq +:+ "y.tar.gz"]).
  - vm_compute. reflexivity.
  - left. reflexivity.
Defined.

(** ** The host key read back from the guest *)

(** A word of [str.split()]: not empty and free of whitespace. *)
Definition word (s : string) : Prop :=
  s ≠ EmptyString ∧ ∀ c, In c (list_ascii_of_string s) → Py.is_space c = false.

Lemma list_ascii_of_string_app (a b : string) :
  list_ascii_of_string (a +:+ b) = list_ascii_of_string a ++ list_ascii_of_string b.
Proof.
  induction a as [|x a IH]; [reflexivity|].
  rewrite append_cons. cbn [list_ascii_of_string app]. now rewrite IH.
Qed.

Lemma word_single (c : ascii) : Py.is_space c = false → word (String c EmptyString).
Proof.
  intros Hc. split; [discriminate|]. intros c' [<-|[]]. exact Hc.
Qed.

Lemma word_snoc (s : string) (c : ascii) :
  word s → Py.is_space c = false → word (s +:+ String c EmptyString).
Proof.
  intros [Hne Hs] Hc. split.
  - destruct s; [congruence|]. rewrite append_cons. discriminate.
  - intros c'. rewrite list_ascii_of_string_app, in_app_iff.
    intros [Hin|[<-|[]]]; auto.
Qed.

Lemma split_from_words (s : string) (cur : option string) :
  (∀ x, cur = Some x → word x) → List.Forall word (Py.split_from cur s).
Proof.
  revert cur. induction s as [|c s IH]; intros cur Hcur; cbn [Py.split_from].
  - destruct cur; [|constructor]. constructor; [auto|constructor].
  - destruct (Py.is_space c) eqn:Hc.
    + destruct cur.
      * constructor; [auto|]. apply IH. discriminate.
      * apply IH. discriminate.
    + apply IH. intros x [= <-]. destruct cur.
      * apply word_snoc; auto.
      * apply word_single; auto.
Qed.

Lemma split_words (s : string) : List.Forall word (Py.split s).
Proof. apply split_from_words. discriminate. Qed.

(** X8. [_get_ssh_public_key] makes one request, for the public key
    file of the given type in the current directory of the current
    host.  It returns the second whitespace-separated word of the file
    when the first one is [ssh-] followed by the key type, and that word
    is not empty and holds no whitespace; a file of fewer than two words
    raises IndexError (an empty file before the comparison, a one-word
    file after it), another first word raises AssertionError. *)
Theorem get_ssh_public_key_spec (E : environment) (key_type : string) (w : world) :
  let h := history w ++ [EGet (host_string (fab w)) (cwd (fab w))
                           ("etc/ssh/ssh_host_" +:+ key_type +:+ "_key.pub")] in
  (Preparevm._get_ssh_public_key E key_type w).2 = set_history h w
  ∧ match (Preparevm._get_ssh_public_key E key_type w).1 with
    | Ret key =>
        word key
        ∧ ∃ contents rest, env_get E h = Some contents
            ∧ Py.split contents = ("ssh-" +:+ key_type) :: key :: rest
    | Raise IndexError =>
        ∃ contents, env_get E h = Some contents
          ∧ (Py.split contents = [] ∨ Py.split contents = ["ssh-" +:+ key_type])
    | Raise AssertionError =>
        ∃ contents first rest, env_get E h = Some contents
          ∧ Py.split contents = first :: rest ∧ first ≠ "ssh-" +:+ key_type
    | Raise (CollaboratorError _) => env_get E h = None
    | Raise _ => False
    end.
Proof.
  cbv zeta. unfold Preparevm._get_ssh_public_key, bind, Fabric.get.
  replace (Py.format "etc/ssh/ssh_host_{0}_key.pub" [key_type])
    with ("etc/ssh/ssh_host_" +:+ key_type +:+ "_key.pub") by (symmetry; cmd_eq).
  destruct (env_get E _) as [contents|] eqn:Hget; [|split; reflexivity].
  pose proof (split_words contents) as Hwords.
  destruct (Py.split contents) as [|first rest] eqn:Hsplit.
  - split; [reflexivity|]. exists contents. auto.
  - destruct (String.eqb_spec first ("ssh-" +:+ key_type)) as [->|Hne].
    + destruct rest as [|second rest].
      * split; [reflexivity|]. exists contents. auto.
      * split; [reflexivity|]. cbn [fst ret]. split.
        -- inversion Hwords as [|? ? _ Hrest]; subst. now inversion Hrest.
        -- exists contents, rest. auto.
    + split; [reflexivity|]. exists contents, first, rest. auto.
Qed.

(** ** Host key generation *)

Section CreateSshKeys.
Variable E : environment.










End CreateSshKeys.

(** ** Where [prepare_vm] works, and what it leaves alone *)

(** A request addressed to the host [host] in the directory [dir]. *)
Definition located (host dir : string) (e : event) : Prop :=
  match e with
  | ERun h c _ _ | EGet h c _ | EPut h c _ _ _ | EUploadTemplate h c _ _ _
  | ECreateAuthorizedKeys h c _ | EExists h c _ => h = host ∧ c = dir
  | EUrlopen _ _ _ | ELogInfo _ | EOnRollback _ => False
  end.

(** What a block of Fabric calls changes of a world: requests to the
    current host in the current directory are appended to the history,
    and of the machine's attributes only [ssh_pubkey] may differ. *)
Definition confined_step (w w' : world) : Prop :=
  fab w' = fab w
  ∧ transaction w' = transaction w
  ∧ environ w' = environ w
  ∧ (∀ k, k ≠ "ssh_pubkey" → server_obj w' !! k = server_obj w !! k)
  ∧ ∃ new, history w' = history w ++ new
           ∧ List.Forall (located (host_string (fab w)) (cwd (fab w))) new.

Definition confined {A} (m : M A) : Prop := ∀ w, confined_step w (m w).2.

Lemma confined_step_refl (w : world) : confined_step w w.
Proof.
  repeat split; auto. exists []. split; [now rewrite app_nil_r | constructor].
Qed.

Lemma confined_step_trans (w1 w2 w3 : world) :
  confined_step w1 w2 → confined_step w2 w3 → confined_step w1 w3.
Proof.
  intros (Hf & Ht & He & Hs & new & Hh & Hn) (Hf' & Ht' & He' & Hs' & new' & Hh' & Hn').
  repeat split; try congruence.
  - intros k Hk. rewrite Hs', Hs; auto.
  - exists (new ++ new'). split.
    + rewrite Hh', Hh, app_assoc. reflexivity.
    + apply List.Forall_app. split; [exact Hn|]. rewrite Hf in Hn'. exact Hn'.
Qed.

Lemma confined_step_one (w : world) (e : event) :
  located (host_string (fab w)) (cwd (fab w)) e →
  confined_step w (set_history (history w ++ [e]) w).
Proof.
  intros He. repeat split; auto. exists [e]. split; [reflexivity|].
  constructor; [exact He | constructor].
Qed.

Lemma confined_ret {A} (a : A) : confined (ret a).
Proof. intros w. apply confined_step_refl. Qed.

Lemma confined_raise {A} (e : exn) : confined (@raise A e).
Proof. intros w. apply confined_step_refl. Qed.

Lemma confined_bind {A B} (m : M A) (k : A → M B) :
  confined m → (∀ a, confined (k a)) → confined (bind m k).
Proof.
  intros Hm Hk w. unfold bind. specialize (Hm w).
  destruct (m w) as [[a|e] w1]; [|exact Hm].
  exact (confined_step_trans _ _ _ Hm (Hk a w1)).
Qed.

Lemma confined_for_each {A} (l : list A) (body : A → M unit) :
  (∀ x, confined (body x)) → confined (for_each l body).
Proof.
  intros Hb. induction l as [|x l IH]; cbn [for_each].
  - apply confined_ret.
  - apply confined_bind; auto.
Qed.

Lemma confined_run (E : environment) (command : string) (warn : bool) :
  confined (Fabric.run E command warn).
Proof.
  intros w. unfold Fabric.run. cbv zeta.
  destruct (_ || _); apply confined_step_one; cbn; auto.
Qed.

Lemma confined_get (E : environment) (path : string) : confined (Fabric.get E path).
Proof.
  intros w. unfold Fabric.get. cbv zeta.
  destruct (env_get E _); apply confined_step_one; cbn; auto.
Qed.

Lemma confined_call (E : environment) (what : string) (e : fabric_env → event) :
  (∀ f, located (host_string f) (cwd f) (e f)) → confined (Fabric.call E what e).
Proof.
  intros He w. unfold Fabric.call. cbv zeta.
  destruct (env_call E _); apply confined_step_one; apply He.
Qed.

Lemma confined_server_obj_get (key : string) : confined (server_obj_get key).
Proof.
  intros w. unfold server_obj_get.
  destruct (server_obj w !! key); apply confined_step_refl.
Qed.

Lemma confined_set_pubkey (value : string) : confined (server_obj_set "ssh_pubkey" value).
Proof.
  intros w. unfold server_obj_set. cbn [snd].
  repeat split; auto.
  - intros k Hk. destruct w. cbn. now rewrite lookup_insert_ne.
  - exists []. split; [destruct w; cbn; now rewrite app_nil_r | constructor].
Qed.

Lemma confined_get_ssh_public_key (E : environment) (key_type : string) :
  confined (Preparevm._get_ssh_public_key E key_type).
Proof.
  unfold Preparevm._get_ssh_public_key.
  apply confined_bind; [apply confined_get|]. intros contents. cbv zeta.
  destruct (Py.split contents) as [|first [|second rest]];
    [apply confined_raise | |];
    destruct (String.eqb first _);
    first [apply confined_raise | apply confined_ret].
Qed.

Create HintDb confined.

#[local] Hint Resolve confined_ret confined_raise confined_run confined_get
  confined_server_obj_get confined_set_pubkey confined_get_ssh_public_key : confined.

Ltac confined_calls :=
  repeat (first
    [ solve [auto with confined]
    | apply confined_call; intros ?; cbn; split; reflexivity
    | apply confined_for_each; intros ?
    | apply confined_bind; [|intros ?] ]).

(** X10. On every path, normal or exceptional, [prepare_vm] restores
    the Fabric environment of its caller, leaves the transaction and the
    process environment alone, changes no attribute of the machine other
    than [ssh_pubkey], and only appends to the history; every request it
    appends is addressed to the hypervisor, in the mount directory of the
    machine: it contacts no other host, opens no URL and registers no
    rollback action. *)
Theorem prepare_vm_confined (E : environment) (settings : igvm_settings)
    (hypervisor : Hypervisor) (vm : VM) (w : world) :
  let w' := (Preparevm.prepare_vm E settings hypervisor vm w).2 in
  fab w' = fab w
  ∧ transaction w' = transaction w
  ∧ environ w' = environ w
  ∧ (∀ k, k ≠ "ssh_pubkey" → server_obj w' !! k = server_obj w !! k)
  ∧ ∃ new, history w' = history w ++ new
           ∧ List.Forall (located (hv_hostname hypervisor) (guest_root hypervisor vm w)) new.
Proof.
  cbv zeta.
  unfold Preparevm.prepare_vm, Preparevm.hv_fabric_settings, Fabric.with_settings.
  cbv zeta.
  match goal with
  | |- context [let (r, w') := ?body ?w0 in _] =>
      assert (Hbody : confined body);
      [| specialize (Hbody w0); destruct (body w0) as [r w1] ]
  end.
  - unfold Preparevm._create_interfaces, Preparevm._create_ssh_keys,
      Preparevm._generate_swap, Preparevm.upload_template,
      Preparevm.create_authorized_keys, Preparevm.run.
    confined_calls.
  - destruct Hbody as (_ & Ht & He & Hs & new & Hh & Hn).
    destruct w, w1. cbn in *. repeat split; auto.
    exists new. split; [exact Hh | exact Hn].
Qed.
